(** * FaceCraft: the glue code of the four face-detection scripts

    The repository consists of four Python scripts that call OpenCV,
    MediaPipe and matplotlib.  The detectors, rasterisers and file system
    are external; they appear here as the fields of one record ([Env]),
    and everything the scripts themselves do (path checks, early returns,
    loops over detections, NumPy slicing, copies and views, drawing calls,
    console output, exit status) is embedded on top of it. *)

From Stdlib Require Import ZArith List Ascii String Bool Lia Floats DecimalString.
From stdpp Require Import base list strings.
Import ListNotations.

Local Open Scope string_scope.
Local Open Scope list_scope.
Local Open Scope Z_scope.

(** ** Rasters *)

(** A colour pixel, in OpenCV's B, G, R order. *)
Definition Pixel : Type := Z * Z * Z.

(** The cells of a colour array, row by row. *)
Abbreviation Buffer := (list (list Pixel)).

Definition Point : Type := Z * Z.

(** A bounding box as the cascades and [cv2.boundingRect] return it. *)
Record Rect : Type := mkRect { rx : Z; ry : Z; rw : Z; rh : Z }.

(** A contour is the sequence of its points. *)
Definition Contour : Type := list Point.

(** A single-channel array; NumPy keeps the shape next to the cells. *)
Record Gray : Type := mkGray { gshape : Z * Z; gcells : list (list Z) }.

(** The memory of a run: the colour arrays a script keeps in a variable and
    writes to or slices (the image it loads or generates, and the copy it
    draws on), by address.  An array that is only read, such as a gray or
    RGB conversion handed on to a library, is kept as a value and has no
    address here, so the size of the memory says nothing about how many
    arrays NumPy or OpenCV allocate. *)
Abbreviation Store := (list Buffer).

(** A colour ndarray: a window on an allocated buffer.  [img.copy()] and
    [cv2.imread] give a window on a fresh buffer, slicing gives a window on
    the same buffer. *)
Record Mat : Type := mkMat {
  buf : nat;
  row0 : Z;
  col0 : Z;
  rows : Z;
  cols : Z
}.

Definition buffer_rows (b : Buffer) : Z := Z.of_nat (length b).

Definition buffer_cols (b : Buffer) : Z :=
  match b with
  | [] => 0
  | r :: _ => Z.of_nat (length r)
  end.

Definition pixel_at (b : Buffer) (r c : Z) : option Pixel :=
  if (r <? 0) || (c <? 0) then None
  else match b !! Z.to_nat r with
       | Some row => row !! Z.to_nat c
       | None => None
       end.

Definition store_pixel (st : Store) (a : nat) (r c : Z) : option Pixel :=
  match st !! a with
  | Some b => pixel_at b r c
  | None => None
  end.

(** ** NumPy basic slicing, step 1 *)

(** One bound of [a[i:j]] on an axis of length [n]: a negative bound counts
    from the end, and the result is clamped to [0, n]. *)
Definition norm_index (n i : Z) : Z :=
  if i <? 0 then Z.max (i + n) 0 else Z.min i n.

(** Start and length of [a[i:j]] on an axis of length [n]. *)
Definition slice_range (n i j : Z) : Z * Z :=
  let s := norm_index n i in
  let e := norm_index n j in
  (s, Z.max 0 (e - s)).

(** [m[y0:y1, x0:x1]]: a view, it shares the buffer of [m]. *)
Definition mat_slice (m : Mat) (y0 y1 x0 x1 : Z) : Mat :=
  let '(sr, lr) := slice_range (rows m) y0 y1 in
  let '(sc, lc) := slice_range (cols m) x0 x1 in
  {| buf := buf m; row0 := row0 m + sr; col0 := col0 m + sc;
     rows := lr; cols := lc |}.

Definition window {A : Type} (start len : Z) (l : list A) : list A :=
  take (Z.to_nat len) (drop (Z.to_nat start) l).

(** [g[y0:y1, x0:x1]] on a single-channel array (never written to by the
    scripts, so it is kept as a value). *)
Definition gray_slice (g : Gray) (y0 y1 x0 x1 : Z) : Gray :=
  let '(sr, lr) := slice_range (fst (gshape g)) y0 y1 in
  let '(sc, lc) := slice_range (snd (gshape g)) x0 x1 in
  {| gshape := (lr, lc);
     gcells := map (window sc lc) (window sr lr (gcells g)) |}.

(** The cells a window shows. *)
Definition crop (m : Mat) (b : Buffer) : Buffer :=
  map (window (col0 m) (cols m)) (window (row0 m) (rows m) b).

Definition read_mat (st : Store) (m : Mat) : Buffer :=
  match st !! buf m with
  | Some b => crop m b
  | None => []
  end.

(** Position, in the coordinates of [outer], of the point [p] given in the
    coordinates of [inner], a view taken from [outer]. *)
Definition to_outer (outer inner : Mat) (p : Point) : Point :=
  (col0 inner - col0 outer + fst p, row0 inner - row0 outer + snd p).

(** ** Drawing *)

Definition in_view (m : Mat) (r c : Z) : bool :=
  (row0 m <=? r) && (r <? row0 m + rows m) &&
  (col0 m <=? c) && (c <? col0 m + cols m).

(** OpenCV's drawing functions write the pixels of a shape that fall inside
    the array they are given, and nothing else.  [hit x y] tells whether the
    shape covers column [x], row [y] of the array. *)
Definition paint (m : Mat) (hit : Z -> Z -> bool) (color : Pixel)
    (b : Buffer) : Buffer :=
  imap (fun r row =>
    imap (fun c p =>
      if in_view m (Z.of_nat r) (Z.of_nat c)
         && hit (Z.of_nat c - col0 m) (Z.of_nat r - row0 m)
      then color else p) row) b.

Definition draw (m : Mat) (hit : Z -> Z -> bool) (color : Pixel)
    (st : Store) : Store :=
  alter (paint m hit color) (buf m) st.

(** [np.zeros((h, w, 3), dtype="uint8")] *)
Definition zeros (h w : Z) : Buffer :=
  replicate (Z.to_nat h) (replicate (Z.to_nat w) (0, 0, 0)).

(** A fresh array holding [b]. *)
Definition alloc (b : Buffer) (st : Store) : Mat * Store :=
  ({| buf := length st; row0 := 0; col0 := 0;
      rows := buffer_rows b; cols := buffer_cols b |}, st ++ [b]).

(** [img.copy()] *)
Definition np_copy (m : Mat) (st : Store) : Mat * Store :=
  ({| buf := length st; row0 := 0; col0 := 0;
      rows := rows m; cols := cols m |}, st ++ [read_mat st m]).

Definition bgr2rgb (p : Pixel) : Pixel :=
  let '(b, g, r) := p in (r, g, b).

(** ** The external world of a run *)

(** [mp_face_mesh.FACEMESH_TESSELATION] and [FACEMESH_CONTOURS]. *)
Inductive Connections : Type := FACEMESH_TESSELATION | FACEMESH_CONTOURS.

(** One face of [results.multi_face_landmarks]: normalised x, y, z. *)
Definition Landmarks : Type := list (float * float * float).

(** What the scripts call but do not define: the file system, OpenCV and
    MediaPipe.  Each field is the library function with the arguments the
    scripts pass that are not constants of the call. *)
Record Env : Type := mkEnv {
  path_exists : string -> bool;
  path_absolute : string -> string;
  imread : string -> option Buffer;
  haarcascades : string;
  bgr2gray : Pixel -> Z;
  GaussianBlur : Gray -> Z * Z -> Z -> Gray;
  Canny : Gray -> Z -> Z -> Gray;
  findContours : Gray -> list Contour;
  contourArea : Contour -> float;
  boundingRect : Contour -> Rect;
  detectMultiScale :
    string -> Gray -> float -> Z -> option (Z * Z) -> list Rect;
  rectangle_hit : Point -> Point -> Z -> Z -> Z -> bool;
  ellipse_hit : Point -> Z * Z -> Z -> Z -> Z -> Z -> Z -> Z -> bool;
  circle_hit : Point -> Z -> Z -> Z -> Z -> bool;
  face_mesh_process : Buffer -> option (list Landmarks);
  draw_landmarks : Landmarks -> Connections -> Buffer -> Buffer
}.

(** What a run does to the outside, in order. *)
Inductive Event : Type :=
| Print (msg : string)
| PathExists (p : string)
| CascadeClassifier (p : string)
| FaceMesh (static_image_mode : bool) (max_num_faces : Z)
    (refine_landmarks : bool) (min_detection_confidence : float)
| Imread (p : string)
| DetectMultiScale (cascade : string) (shape : Z * Z)
| FaceMeshProcess
| Imshow (title : string) (content : Buffer)
| Imwrite (p : string) (content : Buffer)
| WaitKey (delay : Z)
| DestroyAllWindows
| PltFigure (w h : Z)
| PltSubplot (nrows ncols index : Z)
| PltImshow (content : Buffer)
| PltImshowGray (content : Gray)
| PltTitle (s : string)
| PltAxisOff
| PltTightLayout
| PltShow.

(** ** Scripts: state, output and [sys.exit] *)

Inductive Outcome (A : Type) : Type :=
| Done (a : A)
| Exited (code : Z).
Arguments Done {A} a.
Arguments Exited {A} code.

Definition Script (A : Type) : Type :=
  Store -> Outcome A * Store * list Event.

Definition ret {A : Type} (a : A) : Script A :=
  fun st => (Done a, st, []).

Definition bind {A B : Type} (m : Script A) (k : A -> Script B) : Script B :=
  fun st =>
    match m st with
    | (Done a, st1, t1) =>
        let '(o, st2, t2) := k a st1 in (o, st2, t1 ++ t2)
    | (Exited c, st1, t1) => (Exited c, st1, t1)
    end.

Declare Scope script_scope.
Delimit Scope script_scope with script.
Notation "x <- m ;; k" := (bind m (fun x => k))
  (at level 100, m at next level, right associativity) : script_scope.
Notation "m ;; k" := (bind m (fun _ => k))
  (at level 100, right associativity) : script_scope.
Local Open Scope script_scope.

#[local] Set Warnings "-inexact-float".

Definition emit (e : Event) : Script unit :=
  fun st => (Done tt, st, [e]).

Definition sys_exit {A : Type} (code : Z) : Script A :=
  fun st => (Exited code, st, []).

Definition update (f : Store -> Store) : Script unit :=
  fun st => (Done tt, f st, []).

Definition allocate {A : Type} (f : Store -> A * Store) : Script A :=
  fun st => let '(a, st') := f st in (Done a, st', []).

Definition inspect {A : Type} (f : Store -> A) : Script A :=
  fun st => (Done (f st), st, []).

Definition print (msg : string) : Script unit := emit (Print msg).

(** [for x in xs: body] *)
Fixpoint for_each {A : Type} (xs : list A) (body : A -> Script unit)
    : Script unit :=
  match xs with
  | [] => ret tt
  | x :: xs' => body x ;; for_each xs' body
  end.

(** [for x in xs: body], where the body assigns to a local variable. *)
Fixpoint for_fold {A S : Type} (xs : list A) (s : S)
    (body : S -> A -> Script S) : Script S :=
  match xs with
  | [] => ret s
  | x :: xs' => s' <- body s x ;; for_fold xs' s' body
  end.

(** A script run as a process, from an empty memory: its exit status, its
    final memory and what it did.  Falling off the end is status 0. *)
Definition run {A : Type} (m : Script A) : Z * Store * list Event :=
  match m [] with
  | (Done _, st, tr) => (0, st, tr)
  | (Exited c, st, tr) => (c, st, tr)
  end.

Definition status (r : Z * Store * list Event) : Z := fst (fst r).
Definition memory (r : Z * Store * list Event) : Store := snd (fst r).
Definition trace (r : Z * Store * list Event) : list Event := snd r.

(** [str(n)] for a length. *)
Definition str_len {A : Type} (l : list A) : string :=
  NilEmpty.string_of_uint (Nat.to_uint (length l)).

(** [str(Path(url))] for the relative paths of the scripts: pathlib drops
    the leading [./]. *)
Definition Path (url : string) : string :=
  match url with
  | String "."%char (String "/"%char rest) => rest
  | _ => url
  end.

(** ** The scripts *)

Section Scripts.

Variable E : Env.

(** *** Library calls *)

Definition cv2_imread (p : string) : Script (option Mat) :=
  fun st =>
    match imread E p with
    | Some b => let '(m, st') := alloc b st in (Done (Some m), st', [Imread p])
    | None => (Done None, st, [Imread p])
    end.

(** [cv2.cvtColor(m, cv2.COLOR_BGR2GRAY)]: a new array of the same shape. *)
Definition gray_of (st : Store) (m : Mat) : Gray :=
  {| gshape := (rows m, cols m);
     gcells := map (map (bgr2gray E)) (read_mat st m) |}.

Definition cvtColor_gray (m : Mat) : Script Gray :=
  inspect (fun st => gray_of st m).

(** [cv2.cvtColor(m, cv2.COLOR_BGR2RGB)]: a new array, which the scripts
    pass straight to matplotlib or MediaPipe and never write to or slice; as
    for the gray images, only its cells are kept. *)
Definition cvtColor_rgb (m : Mat) : Script Buffer :=
  inspect (fun st => map (map bgr2rgb) (read_mat st m)).

Definition cv2_rectangle (m : Mat) (pt1 pt2 : Point) (color : Pixel)
    (thickness : Z) : Script unit :=
  update (draw m (rectangle_hit E pt1 pt2 thickness) color).

Definition cv2_ellipse (m : Mat) (center : Point) (axes : Z * Z)
    (angle startAngle endAngle : Z) (color : Pixel) (thickness : Z)
    : Script unit :=
  update (draw m
    (ellipse_hit E center axes angle startAngle endAngle thickness) color).

Definition cv2_circle (m : Mat) (center : Point) (radius : Z)
    (color : Pixel) (thickness : Z) : Script unit :=
  update (draw m (circle_hit E center radius thickness) color).

Definition cascade_detect (cascade : string) (g : Gray) (scaleFactor : float)
    (minNeighbors : Z) (minSize : option (Z * Z)) : Script (list Rect) :=
  emit (DetectMultiScale cascade (gshape g)) ;;
  ret (detectMultiScale E cascade g scaleFactor minNeighbors minSize).

Definition cv2_imshow (title : string) (m : Mat) : Script unit :=
  fun st => (Done tt, st, [Imshow title (read_mat st m)]).

Definition cv2_imwrite (p : string) (m : Mat) : Script unit :=
  fun st => (Done tt, st, [Imwrite p (read_mat st m)]).

Definition cv2_waitKey (delay : Z) : Script unit := emit (WaitKey delay).

Definition cv2_destroyAllWindows : Script unit := emit DestroyAllWindows.

(** *** 01-detect_face_by_edge.py *)

Definition generate_sample_face : Script Mat :=
  img <- allocate (alloc (zeros 300 300)) ;;
  cv2_ellipse img (150, 150) (100, 120) 0 0 360 (255, 255, 255) (-1) ;;
  cv2_circle img (110, 130) 15 (0, 0, 0) (-1) ;;
  cv2_circle img (190, 130) 15 (0, 0, 0) (-1) ;;
  cv2_ellipse img (150, 180) (40, 20) 0 0 180 (0, 0, 0) 5 ;;
  ret img.

(** The contours the edge pipeline retrieves from a grayscale image. *)
Definition edge_map_of (gray : Gray) : Gray :=
  Canny E (GaussianBlur E gray (5, 5) 0) 50 150.

(** [area > 1000] *)
Definition large_enough (contour : Contour) : bool :=
  (1000 <? contourArea E contour)%float.

(** The body of the loop over the contours. *)
Definition analyse_contour (result_img : Mat) (face_detected : bool)
    (contour : Contour) : Script bool :=
  if large_enough contour then
    let r := boundingRect E contour in
    cv2_rectangle result_img (rx r, ry r) (rx r + rw r, ry r + rh r)
      (0, 255, 0) 2 ;;
    ret true
  else ret face_detected.

Definition detect_face_edges (img : Mat) : Script (Gray * Mat * bool) :=
  gray <- cvtColor_gray img ;;
  let edges := edge_map_of gray in
  let contours := findContours E edges in
  result_img <- allocate (np_copy img) ;;
  face_detected <- for_fold contours false (analyse_contour result_img) ;;
  ret (edges, result_img, face_detected).

Definition script01 : Script unit :=
  original_img <- generate_sample_face ;;
  r <- detect_face_edges original_img ;;
  let '(edge_map, final_result, found) := r in
  emit (PltFigure 12 4) ;;
  emit (PltSubplot 1 3 1) ;;
  shown <- cvtColor_rgb original_img ;;
  emit (PltImshow shown) ;;
  emit (PltTitle "1. Generated Sample Image") ;;
  emit PltAxisOff ;;
  emit (PltSubplot 1 3 2) ;;
  emit (PltImshowGray edge_map) ;;
  emit (PltTitle "2. Canny Edge Detection") ;;
  emit PltAxisOff ;;
  emit (PltSubplot 1 3 3) ;;
  shown <- cvtColor_rgb final_result ;;
  emit (PltImshow shown) ;;
  emit (PltTitle "3. Detected Face Contour") ;;
  emit PltAxisOff ;;
  emit PltTightLayout ;;
  emit PltShow ;;
  if found then print "Success: Face shape detected via edge analysis."
  else print "No face-like edges found.".

(** *** 02-detect_face_by_haar.py *)

Definition face_cascade_path : string :=
  haarcascades E +:+ "haarcascade_frontalface_default.xml".

Definition eye_cascade_path : string :=
  haarcascades E +:+ "haarcascade_eye.xml".

Definition decode_error : string := "Error: Could not load image.".

Definition draw_face (img : Mat) (f : Rect) : Script unit :=
  cv2_rectangle img (rx f, ry f) (rx f + rw f, ry f + rh f) (255, 0, 0) 2.

Definition detect_faces_in_image (image_url : string) : Script unit :=
  emit (CascadeClassifier face_cascade_path) ;;
  img <- cv2_imread image_url ;;
  match img with
  | None => print decode_error
  | Some img =>
      gray <- cvtColor_gray img ;;
      faces <- cascade_detect face_cascade_path gray 1.1 5 (Some (30, 30)) ;;
      print ("Found " +:+ str_len faces +:+ " faces!") ;;
      for_each faces (draw_face img) ;;
      cv2_imshow "Detected Faces" img ;;
      cv2_imwrite "./output/detected_faces.jpg" img ;;
      print "Result saved as './output/detected_faces.jpg'" ;;
      cv2_waitKey 0 ;;
      cv2_destroyAllWindows
  end.

Definition url02 : string := "./data/sample_faces.jpeg".

Definition script02 : Script unit :=
  present <- (emit (PathExists (Path url02)) ;;
              ret (path_exists E (Path url02))) ;;
  (if negb present then
     print "❌ Image file not found" ;; sys_exit 1
   else ret tt) ;;
  detect_faces_in_image url02.

(** *** 03-detect_features_by_haar.py *)

Definition draw_eye (roi_color : Mat) (e : Rect) : Script unit :=
  cv2_rectangle roi_color (rx e, ry e) (rx e + rw e, ry e + rh e)
    (0, 255, 0) 2.

(** [gray[y:y+h, x:x+w]] and [img[y:y+h, x:x+w]] for a face box. *)
Definition roi_gray_of (gray : Gray) (f : Rect) : Gray :=
  gray_slice gray (ry f) (ry f + rh f) (rx f) (rx f + rw f).

Definition roi_color_of (img : Mat) (f : Rect) : Mat :=
  mat_slice img (ry f) (ry f + rh f) (rx f) (rx f + rw f).

(** The body of the loop over the faces. *)
Definition analyse_face (img : Mat) (gray : Gray) (f : Rect) : Script unit :=
  draw_face img f ;;
  let roi_gray := roi_gray_of gray f in
  let roi_color := roi_color_of img f in
  eyes <- cascade_detect eye_cascade_path roi_gray 1.1 3 None ;;
  for_each eyes (draw_eye roi_color).

Definition detect_features (image_path : string) : Script unit :=
  emit (CascadeClassifier face_cascade_path) ;;
  emit (CascadeClassifier eye_cascade_path) ;;
  img <- cv2_imread image_path ;;
  match img with
  | None => print decode_error
  | Some img =>
      gray <- cvtColor_gray img ;;
      faces <- cascade_detect face_cascade_path gray 1.1 5 (Some (30, 30)) ;;
      print ("Found " +:+ str_len faces +:+ " faces.") ;;
      for_each faces (analyse_face img gray) ;;
      cv2_imshow "Detected Faces and Eyes" img ;;
      cv2_imwrite "./output/detected_features.jpg" img ;;
      print "Result saved as './output/detected_features.jpg'" ;;
      cv2_waitKey 0 ;;
      cv2_destroyAllWindows
  end.

Definition url03 : string := "./data/sample_faces.jpeg".

Definition not_found_at (image_path : string) : string :=
  "❌ Image file not found at: " +:+ path_absolute E image_path.

Definition script03 : Script unit :=
  let image_path := Path url03 in
  present <- (emit (PathExists image_path) ;;
              ret (path_exists E image_path)) ;;
  (if negb present then
     print (not_found_at image_path) ;; sys_exit 1
   else ret tt) ;;
  detect_features image_path.

(** *** 04-detect_face_by_mediapipe.py *)

(** [mp_drawing.draw_landmarks(image=img, landmark_list=..., connections=...)]
    with the default style of the connection set. *)
Definition mp_draw (img : Mat) (face_landmarks : Landmarks)
    (connections : Connections) : Script unit :=
  update (alter (draw_landmarks E face_landmarks connections) (buf img)).

Definition draw_mesh (img : Mat) (face_landmarks : Landmarks) : Script unit :=
  mp_draw img face_landmarks FACEMESH_TESSELATION ;;
  mp_draw img face_landmarks FACEMESH_CONTOURS.

Definition detect_face_contours (image_path : string) : Script unit :=
  emit (FaceMesh true 5 true 0.5) ;;
  img <- cv2_imread image_path ;;
  match img with
  | None => print decode_error
  | Some img =>
      img_rgb <- cvtColor_rgb img ;;
      results <- (emit FaceMeshProcess ;; ret (face_mesh_process E img_rgb)) ;;
      match results with
      | Some ((_ :: _) as multi_face_landmarks) =>
          print ("Found " +:+ str_len multi_face_landmarks +:+ " faces.") ;;
          for_each multi_face_landmarks (draw_mesh img)
      | _ => print "No faces found."
      end ;;
      cv2_imshow "Face Contours" img ;;
      cv2_imwrite "./output/detected_contours.jpg" img ;;
      print "Result saved as './output/detected_contours.jpg'" ;;
      cv2_waitKey 0 ;;
      cv2_destroyAllWindows
  end.

Definition url04 : string := "./data/brendan.jpeg".

Definition script04 : Script unit :=
  let image_path := Path url04 in
  present <- (emit (PathExists image_path) ;;
              ret (path_exists E image_path)) ;;
  (if negb present then
     print (not_found_at image_path) ;; sys_exit 1
   else ret tt) ;;
  detect_face_contours image_path.

End Scripts.

(** ** The three photo-based scripts, side by side *)

Inductive PhotoScript : Type := Script02 | Script03 | Script04.

Definition photo_script (E : Env) (s : PhotoScript) : Script unit :=
  match s with
  | Script02 => script02 E
  | Script03 => script03 E
  | Script04 => script04 E
  end.

(** The path whose existence the main block tests. *)
Definition checked_path (s : PhotoScript) : string :=
  match s with
  | Script02 => Path url02
  | Script03 => Path url03
  | Script04 => Path url04
  end.

(** The path the detection function hands to [cv2.imread]. *)
Definition image_arg (s : PhotoScript) : string :=
  match s with
  | Script02 => url02
  | Script03 => Path url03
  | Script04 => Path url04
  end.

(** The detection function of each script. *)
Definition detection_function (E : Env) (s : PhotoScript)
    : string -> Script unit :=
  match s with
  | Script02 => detect_faces_in_image E
  | Script03 => detect_features E
  | Script04 => detect_face_contours E
  end.

Definition missing_message (E : Env) (s : PhotoScript) : string :=
  match s with
  | Script02 => "❌ Image file not found"
  | Script03 => not_found_at E (Path url03)
  | Script04 => not_found_at E (Path url04)
  end.

(** What a detection function sets up before it loads the image. *)
Definition detector_setup (E : Env) (s : PhotoScript) : list Event :=
  match s with
  | Script02 => [CascadeClassifier (face_cascade_path E)]
  | Script03 => [CascadeClassifier (face_cascade_path E);
                 CascadeClassifier (eye_cascade_path E)]
  | Script04 => [FaceMesh true 5 true 0.5]
  end.

Definition window_title (s : PhotoScript) : string :=
  match s with
  | Script02 => "Detected Faces"
  | Script03 => "Detected Faces and Eyes"
  | Script04 => "Face Contours"
  end.

Definition output_path (s : PhotoScript) : string :=
  match s with
  | Script02 => "./output/detected_faces.jpg"
  | Script03 => "./output/detected_features.jpg"
  | Script04 => "./output/detected_contours.jpg"
  end.

Definition saved_message (s : PhotoScript) : string :=
  "Result saved as '" +:+ output_path s +:+ "'".

(** The five calls that end a detection function, showing [content]. *)
Definition closing (s : PhotoScript) (content : Buffer) : list Event :=
  [Imshow (window_title s) content; Imwrite (output_path s) content;
   Print (saved_message s); WaitKey 0; DestroyAllWindows].

(** The console line of a run that detects nothing. *)
Definition zero_message (s : PhotoScript) : string :=
  match s with
  | Script02 => "Found 0 faces!"
  | Script03 => "Found 0 faces."
  | Script04 => "No faces found."
  end.

(** The first detector call of each script, on the decoded image [b]. *)
Definition first_detection (E : Env) (s : PhotoScript) (b : Buffer) : Event :=
  match s with
  | Script02 | Script03 =>
      DetectMultiScale (face_cascade_path E)
        (gshape (gray_of E [b] (fst (alloc b []))))
  | Script04 => FaceMeshProcess
  end.

(** The detector of the script finds nothing in the decoded image [b]. *)
Definition no_detections (E : Env) (s : PhotoScript) (b : Buffer) : Prop :=
  match s with
  | Script02 | Script03 =>
      detectMultiScale E (face_cascade_path E)
        (gray_of E [b] (fst (alloc b []))) 1.1 5 (Some (30, 30)) = []
  | Script04 =>
      match face_mesh_process E
              (map (map bgr2rgb) (read_mat [b] (fst (alloc b [])))) with
      | Some (_ :: _) => False
      | _ => True
      end
  end.

(** ** Classes of events *)

Definition is_detection (e : Event) : bool :=
  match e with
  | DetectMultiScale _ _ | FaceMeshProcess => true
  | _ => false
  end.

Definition is_window (e : Event) : bool :=
  match e with
  | Imshow _ _ | WaitKey _ | DestroyAllWindows => true
  | _ => false
  end.

Definition is_file_write (e : Event) : bool :=
  match e with
  | Imwrite _ _ => true
  | _ => false
  end.

Definition is_image_read (e : Event) : bool :=
  match e with
  | Imread _ => true
  | _ => false
  end.

(** [p] lies under the directory [d] of the working directory. *)
Definition under_dir (d p : string) : bool :=
  String.prefix (d +:+ "/") (Path p).

Definition is_jpeg (p : string) : bool :=
  match String.index 0 ".jpg" p with
  | Some i => (i + 4 =? String.length p)%nat
  | None => false
  end.

(** A display window was opened and the last thing the run did was to close
    it. *)
Definition ends_by_closing_window (tr : list Event) : Prop :=
  exists pre title content mid,
    tr = pre ++ [Imshow title content] ++ mid ++ [WaitKey 0; DestroyAllWindows].

(** The side-effect profile the interface section gives for a script: it
    reads an image under [./data/], and having decoded it writes a JPEG
    under [./output/] and opens a window that waits for a key. *)
Definition reads_image_under_data (tr : list Event) : Prop :=
  exists p, under_dir "data" p = true /\ In (Imread p) tr.

Definition writes_and_shows (tr : list Event) : Prop :=
  (exists p content,
     under_dir "output" p = true /\ is_jpeg p = true /\
     In (Imwrite p content) tr) /\
  (exists title content, In (Imshow title content) tr) /\
  In (WaitKey 0) tr.

(** ** Boxes *)

(** The pixel at row [r], column [c] of the image [img]. *)
Definition image_pixel (st : Store) (img : Mat) (r c : Z) : option Pixel :=
  store_pixel st (buf img) (row0 img + r) (col0 img + c).

(** Row [r], column [c] lies in the box [f] (the region [y:y+h, x:x+w]). *)
Definition in_rect (f : Rect) (r c : Z) : bool :=
  (ry f <=? r) && (r <? ry f + rh f) && (rx f <=? c) && (c <? rx f + rw f).

(** A box a cascade returns for an image of the given shape (rows, columns):
    its size is not negative and its corner is a position of the image. *)
Definition box_on (shape : Z * Z) (f : Rect) : Prop :=
  0 <= rx f <= snd shape /\ 0 <= ry f <= fst shape /\ 0 <= rw f /\ 0 <= rh f.

(** A box that lies within an array of the given shape. *)
Definition box_within (shape : Z * Z) (e : Rect) : Prop :=
  0 <= rx e /\ 0 <= ry e /\
  rx e + rw e <= snd shape /\ ry e + rh e <= fst shape.

Definition top_left (r : Rect) : Point := (rx r, ry r).
Definition bottom_right (r : Rect) : Point := (rx r + rw r, ry r + rh r).

(** ** A small concrete world

    Stand-ins for the libraries, simple enough to run the scripts on small
    inputs: the cascades return fixed lists of boxes, the drawing functions
    fill the box or disc they are given, and the area of a contour is the
    one of its bounding box. *)

Definition sample_boundingRect (c : Contour) : Rect :=
  match c with
  | [] => mkRect 0 0 0 0
  | p :: ps =>
      let x0 := fold_left Z.min (map fst ps) (fst p) in
      let x1 := fold_left Z.max (map fst ps) (fst p) in
      let y0 := fold_left Z.min (map snd ps) (snd p) in
      let y1 := fold_left Z.max (map snd ps) (snd p) in
      mkRect x0 y0 (x1 - x0 + 1) (y1 - y0 + 1)
  end.

Definition sample_area (c : Contour) : float :=
  let r := sample_boundingRect c in
  PrimFloat.of_uint63 (Uint63.of_Z (rw r * rh r)).

Definition sample_rectangle_hit (pt1 pt2 : Point) (thickness x y : Z) : bool :=
  (fst pt1 <=? x) && (x <=? fst pt2) && (snd pt1 <=? y) && (y <=? snd pt2).

Definition sample_circle_hit (center : Point) (radius thickness x y : Z)
    : bool :=
  (x - fst center) * (x - fst center) + (y - snd center) * (y - snd center)
  <=? radius * radius.

Definition sample_ellipse_hit (center : Point) (axes : Z * Z)
    (angle startAngle endAngle thickness x y : Z) : bool :=
  let dx := x - fst center in
  let dy := y - snd center in
  dx * dx * (snd axes * snd axes) + dy * dy * (fst axes * fst axes)
  <=? fst axes * fst axes * (snd axes * snd axes).

Definition sample_env (present : bool) (decoded : option Buffer)
    (faces eyes : list Rect) (contours : list Contour)
    (mesh : option (list Landmarks)) : Env :=
  {| path_exists := fun _ => present;
     path_absolute := fun p => "/home/user/FaceCraft/" +:+ p;
     imread := fun _ => decoded;
     haarcascades := "/usr/share/opencv4/haarcascades/";
     bgr2gray := fun '(b, g, r) => (114 * b + 587 * g + 299 * r) / 1000;
     GaussianBlur := fun g _ _ => g;
     Canny := fun g _ _ => g;
     findContours := fun _ => contours;
     contourArea := sample_area;
     boundingRect := sample_boundingRect;
     detectMultiScale := fun _ _ _ _ minSize =>
       match minSize with Some _ => faces | None => eyes end;
     rectangle_hit := sample_rectangle_hit;
     ellipse_hit := sample_ellipse_hit;
     circle_hit := sample_circle_hit;
     face_mesh_process := fun _ => mesh;
     draw_landmarks := fun _ _ b => b |}.

(** A file that exists and does not decode. *)
Definition undecodable_env : Env := sample_env true None [] [] [] None.

(** A 4 by 4 black photo in which nothing is detected. *)
Definition empty_photo_env : Env :=
  sample_env true (Some (zeros 4 4)) [] [] [] None.

(** A world for the synthetic-image script: one large square contour. *)
Definition square_env : Env :=
  sample_env false None [] [] [[(50, 30); (250, 30); (250, 270); (50, 270)]]
    None.

(** No file at the input path. *)
Definition missing_photo_env : Env := sample_env false None [] [] [] None.

(** A 6 by 6 photo with the face box (1, 1, 4, 4) and one eye box. *)
Definition face_env : Env :=
  sample_env true (Some (zeros 6 6)) [mkRect 1 1 4 4] [mkRect 0 0 2 2] [] None.

(** ** Reading a run *)

Definition outcome_of {A : Type} (m : Script A) (st : Store) : Outcome A :=
  fst (fst (m st)).

Definition store_after {A : Type} (m : Script A) (st : Store) : Store :=
  snd (fst (m st)).

Definition events_of {A : Type} (m : Script A) (st : Store) : list Event :=
  snd (m st).

(** The decoded photo as [cv2.imread] places it in the empty memory of a new
    process. *)
Definition loaded (b : Buffer) : Mat := fst (alloc b []).

(** What the detector calls and the count line of a script put on record,
    between the load of the image [b] and the display of the result. *)
Definition detection_report (E : Env) (s : PhotoScript) (b : Buffer)
    : list Event :=
  let gray := gray_of E [b] (loaded b) in
  let faces :=
    detectMultiScale E (face_cascade_path E) gray 1.1 5 (Some (30, 30)) in
  match s with
  | Script02 =>
      [DetectMultiScale (face_cascade_path E) (gshape gray);
       Print ("Found " +:+ str_len faces +:+ " faces!")]
  | Script03 =>
      [DetectMultiScale (face_cascade_path E) (gshape gray);
       Print ("Found " +:+ str_len faces +:+ " faces.")] ++
      map (fun f =>
             DetectMultiScale (eye_cascade_path E)
               (gshape (roi_gray_of gray f))) faces
  | Script04 =>
      [FaceMeshProcess;
       Print
         match face_mesh_process E (map (map bgr2rgb) (read_mat [b] (loaded b)))
         with
         | Some ((_ :: _) as multi_face_landmarks) =>
             "Found " +:+ str_len multi_face_landmarks +:+ " faces."
         | _ => "No faces found."
         end]
  end.

(** The memory a detection function leaves behind. *)
Definition annotated (E : Env) (s : PhotoScript) : Store :=
  store_after (detection_function E s (image_arg s)) [].

(** ** The interface section, as worded *)

(** Exit behaviour: status 1 and a console message, with no detector call,
    when the input file is absent; otherwise status 0 after the display
    window closes. *)
Definition exit_behaviour_as_stated (E : Env) (s : PhotoScript) : Prop :=
  let r := run (photo_script E s) in
  if path_exists E (checked_path s) then
    status r = 0 /\ ends_by_closing_window (trace r)
  else
    status r = 1 /\ (exists msg, In (Print msg) (trace r)) /\
    Forall (fun e => is_detection e = false) (trace r).

(** Side effects of a run that succeeds: an image read under [./data/], a
    JPEG written under [./output/], a window waiting for a key. *)
Definition file_profile (tr : list Event) : Prop :=
  reads_image_under_data tr /\ writes_and_shows tr.

#[local] Arguments zeros : simpl never.

(** ** Cells, strokes and counts *)

(** The cell at row [r], column [c] of a single-channel array. *)
Definition gray_at (g : Gray) (r c : Z) : option Z :=
  if (r <? 0) || (c <? 0) then None
  else match gcells g !! Z.to_nat r with
       | Some row => row !! Z.to_nat c
       | None => None
       end.

(** A box that lies within an array of the given shape, corner and size not
    negative. *)
Definition box_inside (shape : Z * Z) (f : Rect) : Prop :=
  0 <= rx f /\ 0 <= ry f /\ 0 <= rw f /\ 0 <= rh f /\
  rx f + rw f <= snd shape /\ ry f + rh f <= fst shape.

(** The pixels [cv2.rectangle(_, (x, y), (x + w, y + h), _, 2)] covers, in
    the coordinates of the array it is given. *)
Definition box_stroke (E : Env) (r : Rect) : Z -> Z -> bool :=
  rectangle_hit E (rx r, ry r) (rx r + rw r, ry r + rh r) 2.

(** Column [x], row [y] is covered by the stroke of one of the boxes. *)
Definition covered_by (E : Env) (boxes : list Rect) (x y : Z) : bool :=
  existsb (fun r => box_stroke E r x y) boxes.

(** The row lengths of an array. *)
Definition row_lengths {A : Type} (b : list (list A)) : list nat :=
  map length b.

(** How many times a run calls a detector. *)
Definition detector_calls (tr : list Event) : nat :=
  length (List.filter is_detection tr).

(** The faces the cascade finds in the decoded photo [b]. *)
Definition faces_of (E : Env) (b : Buffer) : list Rect :=
  detectMultiScale E (face_cascade_path E) (gray_of E [b] (loaded b))
    1.1 5 (Some (30, 30)).

(** The contours the edge pipeline retrieves from the image [img]. *)
Definition contours_of (E : Env) (st : Store) (img : Mat) : list Contour :=
  findContours E (edge_map_of E (gray_of E st img)).

(** The cells of a single-channel array have the shape it declares. *)
Definition well_shaped (g : Gray) : Prop :=
  0 <= fst (gshape g) /\ 0 <= snd (gshape g) /\
  Z.of_nat (length (gcells g)) = fst (gshape g) /\
  Forall (fun row => Z.of_nat (length row) = snd (gshape g)) (gcells g).

(** Every row of a decoded picture has the length of the first one. *)
Definition rectangular (b : Buffer) : Prop :=
  Forall (fun row => Z.of_nat (length row) = buffer_cols b) b.

(** * Properties *)

(** ** The model at work on small inputs *)

Example slice_inside : slice_range 6 1 5 = (1, 4).
Proof. reflexivity. Qed.

Example slice_clamped : slice_range 6 4 9 = (4, 2).
Proof. reflexivity. Qed.

(** A negative bound counts from the end, as in NumPy. *)
Example slice_from_the_end : slice_range 100 (-5) 45 = (95, 0).
Proof. reflexivity. Qed.

Example path_of_url : Path "./data/brendan.jpeg" = "data/brendan.jpeg".
Proof. reflexivity. Qed.

Example len_of_twelve : str_len (replicate 12 tt) = "12".
Proof. reflexivity. Qed.

Example large_square :
  large_enough square_env [(50, 30); (250, 30); (250, 270); (50, 270)] = true
  /\ large_enough square_env [(0, 0); (9, 0); (9, 9); (0, 9)] = false.
Proof. split; reflexivity. Qed.

Example missing_file_run :
  run (script03 (sample_env false None [] [] [] None)) =
  (1, [],
   [PathExists "data/sample_faces.jpeg";
    Print "❌ Image file not found at: /home/user/FaceCraft/data/sample_faces.jpeg"]).
Proof. reflexivity. Qed.

Example undecodable_run :
  run (script02 undecodable_env) =
  (0, [],
   [PathExists "data/sample_faces.jpeg";
    CascadeClassifier
      "/usr/share/opencv4/haarcascades/haarcascade_frontalface_default.xml";
    Imread "./data/sample_faces.jpeg";
    Print "Error: Could not load image."]).
Proof. reflexivity. Qed.

(** One face and one eye in a 6 by 6 photo: the eye detector runs on the
    4 by 4 ROI, the eye box lands at row 1, column 1 of the photo, and the
    corner of the face box, outside the ROI, stays blue. *)
Example two_stage_run :
  let r := run (script03 face_env) in
  status r = 0 /\
  In (DetectMultiScale
        "/usr/share/opencv4/haarcascades/haarcascade_eye.xml" (4, 4))
     (trace r) /\
  In (Print "Found 1 faces.") (trace r) /\
  image_pixel (memory r) (loaded (zeros 6 6)) 1 1 = Some (0, 255, 0) /\
  image_pixel (memory r) (loaded (zeros 6 6)) 5 5 = Some (255, 0, 0) /\
  image_pixel (memory r) (loaded (zeros 6 6)) 0 0 = Some (0, 0, 0).
Proof. vm_compute. intuition. Qed.

(** ** Loops *)

Lemma for_each_steps {A : Type} (body : A -> Script unit)
    (ev : A -> list Event) (xs : list A) :
  (forall x st,
     outcome_of (body x) st = Done tt /\ events_of (body x) st = ev x) ->
  forall st,
    for_each xs body st =
    (Done tt, fold_left (fun s x => store_after (body x) s) xs st,
     flat_map ev xs).
Proof.
  intros Hbody. induction xs as [|x xs IH]; intros st; [reflexivity|].
  cbn [for_each fold_left flat_map]. unfold bind.
  destruct (Hbody x st) as [Ho He].
  unfold outcome_of, events_of, store_after in *.
  destruct (body x st) as [[o st1] tr]. cbn in *. subst o tr.
  rewrite IH. reflexivity.
Qed.

Lemma flat_map_silent {A B : Type} (xs : list A) :
  flat_map (fun _ : A => @nil B) xs = [].
Proof. induction xs as [|x xs IH]; cbn; auto. Qed.

Lemma flat_map_single {A B : Type} (g : A -> B) (xs : list A) :
  flat_map (fun x => [g x]) xs = map g xs.
Proof. induction xs as [|x xs IH]; cbn; [|rewrite IH]; reflexivity. Qed.

Lemma contour_loop (E : Env) (result_img : Mat) (contours : list Contour) :
  forall (face_detected : bool) (st : Store),
    for_fold contours face_detected (analyse_contour E result_img) st =
    (Done (face_detected || existsb (large_enough E) contours),
     fold_left
       (fun s c =>
          store_after
            (cv2_rectangle E result_img (top_left (boundingRect E c))
               (bottom_right (boundingRect E c)) (0, 255, 0) 2) s)
       (List.filter (large_enough E) contours) st,
     []).
Proof.
  induction contours as [|c cs IH]; intros fd st.
  - cbn. now rewrite orb_false_r.
  - cbn [for_fold existsb List.filter]. unfold bind.
    unfold analyse_contour at 1.
    destruct (large_enough E c) eqn:Hc.
    + cbn. rewrite IH. cbn. now rewrite orb_true_r.
    + cbn. rewrite IH. reflexivity.
Qed.

(** A fold of steps that each keep a relation on memories keeps it. *)
Lemma fold_left_keeps {A : Type} (R : Store -> Store -> Prop)
    (step : Store -> A -> Store) (xs : list A) :
  (forall st, R st st) ->
  (forall st1 st2 st3, R st1 st2 -> R st2 st3 -> R st1 st3) ->
  (forall st x, R st (step st x)) ->
  forall st, R st (fold_left step xs st).
Proof.
  intros Hrefl Htrans Hstep.
  induction xs as [|x xs IH]; intros st; cbn; [apply Hrefl|].
  eapply Htrans; [apply Hstep | apply IH].
Qed.

(** ** Slices *)

Lemma slice_range_inside (n i j : Z) :
  0 <= i -> i <= j ->
  let '(s, l) := slice_range n i j in
  0 <= l /\ (0 < l -> s = i /\ s + l <= j).
Proof.
  intros Hi Hj. unfold slice_range, norm_index.
  repeat case Z.ltb_spec; intros; lia.
Qed.

Lemma slice_range_anchored (n i j : Z) :
  0 <= i <= n -> i <= j ->
  let '(s, l) := slice_range n i j in
  s = i /\ 0 <= l /\ l <= j - i.
Proof.
  intros Hi Hj. unfold slice_range, norm_index.
  repeat case Z.ltb_spec; intros; lia.
Qed.

(** ** Painting *)

Lemma pixel_at_paint_outside (m : Mat) (hit : Z -> Z -> bool) (color : Pixel)
    (b : Buffer) (r c : Z) :
  in_view m r c = false ->
  pixel_at (paint m hit color b) r c = pixel_at b r c.
Proof.
  intros Hout. unfold pixel_at.
  destruct ((r <? 0) || (c <? 0)) eqn:Hneg; [reflexivity|].
  apply orb_false_iff in Hneg as [Hr Hc].
  apply Z.ltb_ge in Hr, Hc.
  unfold paint. rewrite list_lookup_imap.
  destruct (b !! Z.to_nat r) as [row|]; cbn; [|reflexivity].
  rewrite list_lookup_imap.
  destruct (row !! Z.to_nat c) as [p|]; cbn; [|reflexivity].
  rewrite !Z2Nat.id by assumption. now rewrite Hout.
Qed.

Lemma store_pixel_draw_outside (m : Mat) (hit : Z -> Z -> bool)
    (color : Pixel) (st : Store) (a : nat) (r c : Z) :
  a <> buf m \/ in_view m r c = false ->
  store_pixel (draw m hit color st) a r c = store_pixel st a r c.
Proof.
  intros Hout. unfold store_pixel, draw.
  destruct (decide (a = buf m)) as [->|Hne].
  - destruct Hout as [Hne|Hout]; [congruence|].
    rewrite list_lookup_alter_eq.
    destruct (st !! buf m); cbn; [|reflexivity].
    now apply pixel_at_paint_outside.
  - now rewrite list_lookup_alter_ne by congruence.
Qed.

Lemma lookup_draw_other (m : Mat) (hit : Z -> Z -> bool) (color : Pixel)
    (st : Store) (a : nat) :
  a <> buf m -> draw m hit color st !! a = st !! a.
Proof.
  intros Hne. unfold draw. now rewrite list_lookup_alter_ne by congruence.
Qed.

(** ** The detection functions, call by call *)

Ltac unfold_calls :=
  unfold bind, emit, print, ret, cvtColor_gray, cvtColor_rgb, inspect,
    update, allocate, cascade_detect, cv2_imshow, cv2_imwrite, cv2_waitKey,
    cv2_destroyAllWindows, sys_exit; cbn.

Lemma draw_face_step (E : Env) (img : Mat) (f : Rect) (st : Store) :
  outcome_of (draw_face E img f) st = Done tt /\
  events_of (draw_face E img f) st = [].
Proof. split; reflexivity. Qed.

Lemma draw_eye_step (E : Env) (roi_color : Mat) (e : Rect) (st : Store) :
  outcome_of (draw_eye E roi_color e) st = Done tt /\
  events_of (draw_eye E roi_color e) st = [].
Proof. split; reflexivity. Qed.

Lemma draw_mesh_step (E : Env) (img : Mat) (l : Landmarks) (st : Store) :
  outcome_of (draw_mesh E img l) st = Done tt /\
  events_of (draw_mesh E img l) st = [].
Proof. split; reflexivity. Qed.

Lemma analyse_face_step (E : Env) (img : Mat) (gray : Gray) (f : Rect)
    (st : Store) :
  outcome_of (analyse_face E img gray f) st = Done tt /\
  events_of (analyse_face E img gray f) st =
    [DetectMultiScale (eye_cascade_path E) (gshape (roi_gray_of gray f))].
Proof.
  unfold outcome_of, events_of, analyse_face. unfold_calls.
  rewrite (for_each_steps _ (fun _ => []) _ (draw_eye_step E _)).
  cbn. rewrite flat_map_silent. split; reflexivity.
Qed.

(** A detection function whose image does not decode says so and returns. *)
Lemma detection_undecoded (E : Env) (s : PhotoScript) (p : string)
    (st : Store) :
  imread E p = None ->
  detection_function E s p st =
  (Done tt, st, detector_setup E s ++ [Imread p; Print decode_error]).
Proof.
  intros Hp.
  destruct s; cbn [detection_function detector_setup];
    [unfold detect_faces_in_image | unfold detect_features
    | unfold detect_face_contours];
    unfold cv2_imread; unfold_calls; rewrite Hp; reflexivity.
Qed.

(** A detection function whose image decodes goes through detection, display
    and saving, whatever the detector returns. *)
Lemma detection_decoded (E : Env) (s : PhotoScript) (p : string) (b : Buffer) :
  imread E p = Some b ->
  detection_function E s p [] =
  (Done tt, store_after (detection_function E s p) [],
   detector_setup E s ++ [Imread p] ++ detection_report E s b ++
   closing s (read_mat (store_after (detection_function E s p) []) (loaded b))).
Proof.
  intros Hp. unfold store_after.
  destruct s; cbn [detection_function detector_setup detection_report closing].
  - unfold detect_faces_in_image, cv2_imread. unfold_calls. rewrite Hp.
    unfold_calls.
    rewrite (for_each_steps _ (fun _ => []) _ (draw_face_step E _)).
    cbn. rewrite flat_map_silent. reflexivity.
  - unfold detect_features, cv2_imread. unfold_calls. rewrite Hp.
    unfold_calls.
    rewrite (for_each_steps _ _ _ (analyse_face_step E _ _)).
    cbn. rewrite flat_map_single. reflexivity.
  - unfold detect_face_contours, cv2_imread. unfold_calls. rewrite Hp.
    unfold_calls.
    destruct (face_mesh_process E _) as [[|l ls]|]; cbn; try reflexivity.
    rewrite (for_each_steps _ (fun _ => []) _ (draw_mesh_step E _)).
    cbn. rewrite flat_map_silent. reflexivity.
Qed.

(** ** The main blocks *)

(** A run of a photo-based script is the path test followed, when the file
    is there, by the detection function. *)
Lemma photo_script_main (E : Env) (s : PhotoScript) :
  run (photo_script E s) =
  if path_exists E (checked_path s) then
    match detection_function E s (image_arg s) [] with
    | (Done _, st, tr) => (0, st, PathExists (checked_path s) :: tr)
    | (Exited c, st, tr) => (c, st, PathExists (checked_path s) :: tr)
    end
  else (1, [], [PathExists (checked_path s); Print (missing_message E s)]).
Proof.
  destruct s;
    cbn [photo_script checked_path image_arg detection_function
         missing_message];
    [unfold script02; generalize (detect_faces_in_image E url02)
    | unfold script03; generalize (detect_features E (Path url03))
    | unfold script04; generalize (detect_face_contours E (Path url04))];
    intros d; unfold run; unfold_calls;
    destruct (path_exists E _); cbn; try reflexivity;
    destruct (d []) as [[[u|c] st] tr]; reflexivity.
Qed.

(** The three ways a photo-based script can run. *)
Lemma photo_script_run (E : Env) (s : PhotoScript) :
  run (photo_script E s) =
  match path_exists E (checked_path s), imread E (image_arg s) with
  | false, _ =>
      (1, [], [PathExists (checked_path s); Print (missing_message E s)])
  | true, None =>
      (0, [],
       PathExists (checked_path s) ::
       detector_setup E s ++ [Imread (image_arg s); Print decode_error])
  | true, Some b =>
      (0, annotated E s,
       PathExists (checked_path s) ::
       detector_setup E s ++ [Imread (image_arg s)] ++
       detection_report E s b ++
       closing s (read_mat (annotated E s) (loaded b)))
  end.
Proof.
  rewrite photo_script_main.
  destruct (path_exists E (checked_path s)); [|reflexivity].
  destruct (imread E (image_arg s)) as [b|] eqn:Hp.
  - rewrite (detection_decoded E s _ b Hp). reflexivity.
  - rewrite (detection_undecoded E s _ [] Hp). reflexivity.
Qed.

Lemma detection_report_starts (E : Env) (s : PhotoScript) (b : Buffer) :
  exists rest, detection_report E s b = first_detection E s b :: rest.
Proof. destruct s; cbn; eauto. Qed.

Lemma setup_is_quiet (E : Env) (s : PhotoScript) :
  Forall (fun e => is_detection e = false /\ is_window e = false /\
                   is_file_write e = false) (detector_setup E s).
Proof. destruct s; cbn; repeat constructor. Qed.

(** ** Error handling *)

(** C9. In every photo-based script, when [cv2.imread] returns [None] the
    detection function prints the decode error and returns at once: memory
    is as it was, and besides the set-up of the detector and the load
    attempt the only thing on record is the console message, so no output
    file is written, no window is opened and no detector is called. *)
Theorem decode_failure_is_atomic (E : Env) (s : PhotoScript) (p : string)
    (st : Store) :
  imread E p = None ->
  detection_function E s p st =
    (Done tt, st, detector_setup E s ++ [Imread p; Print decode_error]) /\
  Forall (fun e => is_detection e = false /\ is_window e = false /\
                   is_file_write e = false)
    (events_of (detection_function E s p) st).
Proof.
  intros Hp. split; [now apply detection_undecoded|].
  unfold events_of. rewrite (detection_undecoded E s p st Hp). cbn [snd].
  apply Forall_app. split; [apply setup_is_quiet|].
  repeat constructor.
Qed.

Lemma decode_failure_is_atomic_witness :
  imread undecodable_env (image_arg Script03) = None /\
  detection_function undecodable_env Script03 (image_arg Script03) [] =
    (Done tt, [],
     detector_setup undecodable_env Script03 ++
     [Imread (image_arg Script03); Print decode_error]).
Proof.
  split; [reflexivity|].
  apply (decode_failure_is_atomic undecodable_env Script03
           (image_arg Script03) []).
  reflexivity.
Defined.

(** C3. Each photo-based script checks exactly two error conditions.  A
    missing input file: the message goes to the console and the process
    exits (with status 1).  An image that does not decode: the message goes
    to the console and the detection function returns before any detector
    call.  In every other run, whatever the detector returns, detection is
    run and the result is displayed and saved. *)
Theorem two_error_conditions (E : Env) (s : PhotoScript) :
  let r := run (photo_script E s) in
  match path_exists E (checked_path s), imread E (image_arg s) with
  | false, _ =>
      r = (1, [], [PathExists (checked_path s); Print (missing_message E s)])
  | true, None =>
      r = (0, [],
           PathExists (checked_path s) ::
           detector_setup E s ++ [Imread (image_arg s); Print decode_error])
      /\ Forall (fun e => is_detection e = false) (trace r)
  | true, Some b =>
      exists rest,
        r = (0, annotated E s,
             PathExists (checked_path s) ::
             detector_setup E s ++
             [Imread (image_arg s); first_detection E s b] ++ rest ++
             closing s (read_mat (annotated E s) (loaded b)))
  end.
Proof.
  intros r. subst r. rewrite photo_script_run.
  destruct (path_exists E (checked_path s)); [|reflexivity].
  destruct (imread E (image_arg s)) as [b|].
  - destruct (detection_report_starts E s b) as [rest Hrest].
    exists rest. rewrite Hrest. reflexivity.
  - split; [reflexivity|]. cbn [trace snd].
    constructor; [reflexivity|].
    apply Forall_app. split.
    + eapply Forall_impl; [apply setup_is_quiet|]. cbn. tauto.
    + repeat constructor.
Qed.

(** C2, in the form the scripts satisfy.  When the hardcoded input path does
    not exist, each photo-based script prints a console message and exits
    with status 1 without any detector call.  Otherwise it exits with status 0: after the
    display window closes when the image decodes, and right after the
    decode error, with no window ever opened, when it does not. *)
Theorem exit_behaviour (E : Env) (s : PhotoScript) :
  let r := run (photo_script E s) in
  if path_exists E (checked_path s) then
    status r = 0 /\
    match imread E (image_arg s) with
    | Some _ => ends_by_closing_window (trace r)
    | None =>
        (exists pre, trace r = pre ++ [Print decode_error]) /\
        Forall (fun e => is_window e = false) (trace r)
    end
  else
    status r = 1 /\
    trace r = [PathExists (checked_path s); Print (missing_message E s)] /\
    Forall (fun e => is_detection e = false) (trace r).
Proof.
  intros r. subst r. rewrite photo_script_run.
  destruct (path_exists E (checked_path s)).
  - destruct (imread E (image_arg s)) as [b|]; (split; [reflexivity|]).
    + cbn [trace snd]. unfold closing.
      exists (PathExists (checked_path s) ::
              detector_setup E s ++ [Imread (image_arg s)] ++
              detection_report E s b),
        (window_title s), (read_mat (annotated E s) (loaded b)),
        [Imwrite (output_path s) (read_mat (annotated E s) (loaded b));
         Print (saved_message s)].
      cbn. rewrite <- !app_assoc. reflexivity.
    + cbn [trace snd]. split.
      * exists (PathExists (checked_path s) ::
                detector_setup E s ++ [Imread (image_arg s)]).
        cbn. rewrite <- !app_assoc. reflexivity.
      * constructor; [reflexivity|].
        apply Forall_app. split.
        -- eapply Forall_impl; [apply setup_is_quiet|]. cbn. tauto.
        -- repeat constructor.
  - cbn. repeat split. repeat constructor.
Qed.

(** C2 does not hold as worded: a file that exists and does not decode makes
    script 02 exit with status 0 although no display window was ever opened. *)
Lemma undecodable_photo_shows_no_window :
  ~ exit_behaviour_as_stated undecodable_env Script02.
Proof.
  unfold exit_behaviour_as_stated.
  change (path_exists undecodable_env (checked_path Script02)) with true.
  cbv iota. intros [_ (pre & title & content & mid & Htr)].
  assert (Hin : In (Imshow title content)
                  (trace (run (photo_script undecodable_env Script02)))).
  { rewrite Htr. apply in_or_app. right. now left. }
  vm_compute in Hin.
  repeat (destruct Hin as [Hin|Hin]; [discriminate Hin|]).
  exact Hin.
Qed.

(** C6. A photo-based script whose detector finds nothing runs to the end as
    usual: it prints the zero count (or "No faces found."), shows and writes
    the image, which is the decoded photo without annotations, and exits
    with status 0. *)
Theorem zero_detections_are_normal (E : Env) (s : PhotoScript) (b : Buffer) :
  path_exists E (checked_path s) = true ->
  imread E (image_arg s) = Some b ->
  no_detections E s b ->
  run (photo_script E s) =
  (0, [b],
   PathExists (checked_path s) ::
   detector_setup E s ++
   [Imread (image_arg s); first_detection E s b; Print (zero_message s)] ++
   closing s (read_mat [b] (loaded b))).
Proof.
  intros Hex Hp Hzero. rewrite photo_script_main, Hex.
  destruct s; cbn [detection_function image_arg] in *;
    [unfold detect_faces_in_image | unfold detect_features
    | unfold detect_face_contours];
    unfold cv2_imread; unfold_calls; cbn in Hp, Hzero; rewrite Hp;
    unfold_calls.
  - rewrite Hzero. reflexivity.
  - rewrite Hzero. reflexivity.
  - destruct (face_mesh_process E _) as [[|l ls]|];
      [reflexivity | contradiction | reflexivity].
Qed.

Lemma zero_detections_are_normal_witness :
  path_exists empty_photo_env (checked_path Script02) = true /\
  imread empty_photo_env (image_arg Script02) = Some (zeros 4 4) /\
  no_detections empty_photo_env Script02 (zeros 4 4) /\
  run (photo_script empty_photo_env Script02) =
  (0, [zeros 4 4],
   PathExists (checked_path Script02) ::
   detector_setup empty_photo_env Script02 ++
   [Imread (image_arg Script02);
    first_detection empty_photo_env Script02 (zeros 4 4);
    Print "Found 0 faces!"] ++
   closing Script02 (read_mat [zeros 4 4] (loaded (zeros 4 4)))).
Proof.
  split; [reflexivity|]. split; [reflexivity|]. split; [reflexivity|].
  apply (zero_detections_are_normal empty_photo_env Script02 (zeros 4 4));
    reflexivity.
Defined.

(** ** The two-stage detector *)

(** C1. In [detect_features], take a face box (x, y, w, h) the face cascade
    returns for the image (its size is not negative and its corner is a
    position of the image) and an eye box (ex, ey, ew, eh) that lies within
    the ROI the eye cascade was run on.  The eye rectangle, drawn on the
    view [roi_color], has its corners at (x+ex, y+ey) and (x+ex+ew, y+ey+eh)
    of the output image, and lies within the face rectangle:
    x <= x+ex, y <= y+ey, x+ex+ew <= x+w and y+ey+eh <= y+h. *)
Theorem eye_rectangle_within_face (E : Env) (st : Store) (img : Mat)
    (f e : Rect) :
  let gray := gray_of E st img in
  box_on (gshape gray) f ->
  box_within (gshape (roi_gray_of gray f)) e ->
  let roi_color := roi_color_of img f in
  let p1 := to_outer img roi_color (top_left e) in
  let p2 := to_outer img roi_color (bottom_right e) in
  p1 = (rx f + rx e, ry f + ry e) /\
  p2 = (rx f + rx e + rw e, ry f + ry e + rh e) /\
  rx f <= fst p1 /\ ry f <= snd p1 /\
  fst p2 <= rx f + rw f /\ snd p2 <= ry f + rh f.
Proof.
  intros gray Hf He roi_color p1 p2.
  subst gray roi_color p1 p2.
  unfold box_on, box_within, roi_gray_of, gray_slice, roi_color_of, mat_slice,
    to_outer, top_left, bottom_right, gray_of in *.
  cbn [gshape fst snd] in *.
  destruct Hf as (Hx & Hy & Hw & Hh).
  pose proof (slice_range_anchored (rows img) (ry f) (ry f + rh f)
                Hy ltac:(lia)) as Hr.
  pose proof (slice_range_anchored (cols img) (rx f) (rx f + rw f)
                Hx ltac:(lia)) as Hc.
  destruct (slice_range (rows img) (ry f) (ry f + rh f)) as [sr lr].
  destruct (slice_range (cols img) (rx f) (rx f + rw f)) as [sc lc].
  cbn [gshape fst snd row0 col0] in *.
  destruct Hr as (-> & Hlr0 & Hlr), Hc as (-> & Hlc0 & Hlc).
  destruct He as (Hex & Hey & Hew & Heh).
  repeat split; try (f_equal; lia); lia.
Qed.

Lemma eye_rectangle_within_face_witness :
  box_on (gshape (gray_of face_env [] (mkMat 0 0 0 100 120)))
    (mkRect 10 20 50 40) /\
  box_within
    (gshape (roi_gray_of (gray_of face_env [] (mkMat 0 0 0 100 120))
               (mkRect 10 20 50 40)))
    (mkRect 5 8 12 10) /\
  to_outer (mkMat 0 0 0 100 120)
    (roi_color_of (mkMat 0 0 0 100 120) (mkRect 10 20 50 40))
    (top_left (mkRect 5 8 12 10)) = (15, 28) /\
  to_outer (mkMat 0 0 0 100 120)
    (roi_color_of (mkMat 0 0 0 100 120) (mkRect 10 20 50 40))
    (bottom_right (mkRect 5 8 12 10)) = (27, 38).
Proof.
  assert (Hf : box_on (gshape (gray_of face_env [] (mkMat 0 0 0 100 120)))
                 (mkRect 10 20 50 40))
    by (vm_compute; repeat split; discriminate).
  assert (He : box_within
                 (gshape (roi_gray_of
                            (gray_of face_env [] (mkMat 0 0 0 100 120))
                            (mkRect 10 20 50 40)))
                 (mkRect 5 8 12 10))
    by (vm_compute; repeat split; discriminate).
  destruct (eye_rectangle_within_face face_env [] (mkMat 0 0 0 100 120)
              (mkRect 10 20 50 40) (mkRect 5 8 12 10) Hf He)
    as (H1 & H2 & _).
  split; [exact Hf|]. split; [exact He|]. split; [exact H1 | exact H2].
Defined.

(** The eye boxes are drawn on the view, so outside the view nothing moves. *)
Lemma draw_eye_confined (E : Env) (roi_color : Mat) (e : Rect) (st : Store)
    (a : nat) (r c : Z) :
  a <> buf roi_color \/ in_view roi_color r c = false ->
  store_pixel (store_after (draw_eye E roi_color e) st) a r c =
  store_pixel st a r c.
Proof. intros Hout. now apply store_pixel_draw_outside. Qed.

Lemma roi_view_in_face (img : Mat) (f : Rect) (r c : Z) :
  0 <= rx f -> 0 <= ry f -> 0 <= rw f -> 0 <= rh f ->
  in_rect f r c = false ->
  in_view (roi_color_of img f) (row0 img + r) (col0 img + c) = false.
Proof.
  intros Hx Hy Hw Hh Hout. unfold roi_color_of, mat_slice.
  pose proof (slice_range_inside (rows img) (ry f) (ry f + rh f)
                Hy ltac:(lia)) as Hr.
  pose proof (slice_range_inside (cols img) (rx f) (rx f + rw f)
                Hx ltac:(lia)) as Hc.
  destruct (slice_range (rows img) (ry f) (ry f + rh f)) as [sr lr].
  destruct (slice_range (cols img) (rx f) (rx f + rw f)) as [sc lc].
  unfold in_view, in_rect in *. cbn [row0 col0 rows cols].
  destruct Hr as [Hlr Hr], Hc as [Hlc Hc].
  apply not_true_is_false. intros Hin.
  apply not_true_iff_false in Hout. apply Hout.
  rewrite !andb_true_iff in *.
  rewrite !Z.leb_le, !Z.ltb_lt in *. lia.
Qed.

(** C10. In the two-stage detector the eye rectangles of a face (a box with
    non-negative corner and size, as the cascade returns them) are drawn on
    [roi_color], a view of the main image: the eye-drawing loop changes no
    pixel of the main image outside the region of that face, no other array,
    and so no pixel that lies outside all detected face boxes. *)
Theorem eye_drawing_confined_to_face (E : Env) (img : Mat) (f : Rect)
    (eyes : list Rect) (st : Store) :
  0 <= rx f -> 0 <= ry f -> 0 <= rw f -> 0 <= rh f ->
  let st' := store_after (for_each eyes (draw_eye E (roi_color_of img f))) st in
  (forall r c, in_rect f r c = false ->
     image_pixel st' img r c = image_pixel st img r c) /\
  (forall a, a <> buf img -> st' !! a = st !! a) /\
  (forall faces r c, In f faces ->
     (forall g, In g faces -> in_rect g r c = false) ->
     image_pixel st' img r c = image_pixel st img r c).
Proof.
  intros Hx Hy Hw Hh st'.
  assert (Hst' : st' = fold_left
            (fun s e => store_after (draw_eye E (roi_color_of img f) e) s)
            eyes st).
  { subst st'. unfold store_after at 1.
    now rewrite (for_each_steps _ (fun _ => []) _ (draw_eye_step E _)). }
  assert (Hpix : forall r c, in_rect f r c = false ->
            image_pixel st' img r c = image_pixel st img r c).
  { intros r c Hout. rewrite Hst'. unfold image_pixel. symmetry.
    apply (fold_left_keeps
             (fun s1 s2 =>
                store_pixel s1 (buf img) (row0 img + r) (col0 img + c) =
                store_pixel s2 (buf img) (row0 img + r) (col0 img + c))).
    - reflexivity.
    - intros s1 s2 s3 H12 H23. now rewrite H12.
    - intros s e. symmetry. apply draw_eye_confined. right.
      now apply roi_view_in_face. }
  split; [exact Hpix|]. split.
  - intros a Ha. rewrite Hst'. symmetry.
    apply (fold_left_keeps (fun s1 s2 => s1 !! a = s2 !! a)).
    + reflexivity.
    + intros s1 s2 s3 H12 H23. now rewrite H12.
    + intros s e. symmetry. apply lookup_draw_other.
      unfold roi_color_of, mat_slice.
      destruct (slice_range _ _ _), (slice_range _ _ _). exact Ha.
  - intros faces r c Hf Hall. apply Hpix. now apply Hall.
Qed.

Lemma eye_drawing_confined_to_face_witness :
  in_rect (mkRect 1 1 4 4) 5 5 = false /\
  image_pixel
    (store_after
       (for_each [mkRect 0 0 2 2]
          (draw_eye face_env
             (roi_color_of (mkMat 0 0 0 6 6) (mkRect 1 1 4 4))))
       [zeros 6 6])
    (mkMat 0 0 0 6 6) 5 5 =
  image_pixel [zeros 6 6] (mkMat 0 0 0 6 6) 5 5.
Proof.
  split; [reflexivity|].
  apply (eye_drawing_confined_to_face face_env (mkMat 0 0 0 6 6)
           (mkRect 1 1 4 4) [mkRect 0 0 2 2] [zeros 6 6]);
    cbn; try lia; reflexivity.
Defined.

(** ** The synthetic-image script *)

(** [detect_face_edges], call by call. *)
Lemma detect_face_edges_run (E : Env) (img : Mat) (st : Store) :
  let contours := findContours E (edge_map_of E (gray_of E st img)) in
  let result_img := fst (np_copy img st) in
  detect_face_edges E img st =
  (Done (edge_map_of E (gray_of E st img), result_img,
         existsb (large_enough E) contours),
   fold_left
     (fun s c =>
        store_after
          (cv2_rectangle E result_img (top_left (boundingRect E c))
             (bottom_right (boundingRect E c)) (0, 255, 0) 2) s)
     (List.filter (large_enough E) contours) (snd (np_copy img st)),
   []).
Proof.
  intros contours result_img. subst contours result_img.
  unfold detect_face_edges. unfold_calls.
  rewrite contour_loop. reflexivity.
Qed.

(** C5. [detect_face_edges] returns [face_detected = True] exactly when some
    retrieved contour has an area strictly above 1000; the result image is
    the copy of the input on which, for each such contour in turn, the
    bounding rectangle was drawn; the other contours leave no mark. *)
Theorem detect_face_edges_flags_large_contours (E : Env) (img : Mat)
    (st : Store) :
  let edges := edge_map_of E (gray_of E st img) in
  let contours := findContours E edges in
  let result_img := fst (np_copy img st) in
  let face_detected := existsb (large_enough E) contours in
  detect_face_edges E img st =
    (Done (edges, result_img, face_detected),
     fold_left
       (fun s c =>
          store_after
            (cv2_rectangle E result_img (top_left (boundingRect E c))
               (bottom_right (boundingRect E c)) (0, 255, 0) 2) s)
       (List.filter (large_enough E) contours) (snd (np_copy img st)),
     []) /\
  (face_detected = true <->
   exists c, In c contours /\ (1000 <? contourArea E c)%float = true) /\
  (forall c, In c (List.filter (large_enough E) contours) <->
             In c contours /\ (1000 <? contourArea E c)%float = true).
Proof.
  intros edges contours result_img face_detected.
  split; [apply detect_face_edges_run|]. split.
  - subst face_detected. rewrite existsb_exists. reflexivity.
  - intros c. apply filter_In.
Qed.

Lemma copy_is_fresh (E : Env) (img : Mat) (st : Store) (cs : list Contour)
    (a : nat) :
  (a < length st)%nat ->
  fold_left
    (fun s c =>
       store_after
         (cv2_rectangle E (fst (np_copy img st)) (top_left (boundingRect E c))
            (bottom_right (boundingRect E c)) (0, 255, 0) 2) s)
    cs (snd (np_copy img st)) !! a = st !! a.
Proof.
  intros Ha. symmetry.
  transitivity (snd (np_copy img st) !! a).
  - cbn. now rewrite lookup_app_l.
  - apply (fold_left_keeps (fun s1 s2 => s1 !! a = s2 !! a)).
    + reflexivity.
    + intros s1 s2 s3 H12 H23. now rewrite H12.
    + intros s c. symmetry. apply lookup_draw_other. cbn. lia.
Qed.

(** C8. [detect_face_edges] does not write to its input image: the
    rectangles go to a copy, and every array that was allocated before the
    call, the input among them, holds the same cells after it. *)
Theorem detect_face_edges_keeps_input (E : Env) (img : Mat) (st : Store) :
  (buf img < length st)%nat ->
  let st' := store_after (detect_face_edges E img) st in
  st' !! buf img = st !! buf img /\
  read_mat st' img = read_mat st img /\
  (forall a, (a < length st)%nat -> st' !! a = st !! a).
Proof.
  intros Himg st'.
  assert (Hall : forall a, (a < length st)%nat -> st' !! a = st !! a).
  { intros a Ha. subst st'. unfold store_after.
    rewrite detect_face_edges_run. cbn [fst snd].
    now apply copy_is_fresh. }
  split; [now apply Hall|]. split; [|exact Hall].
  unfold read_mat. now rewrite Hall.
Qed.

Lemma detect_face_edges_keeps_input_witness :
  (buf (mkMat 0 0 0 3 3) < length [zeros 3 3])%nat /\
  store_after (detect_face_edges square_env (mkMat 0 0 0 3 3)) [zeros 3 3]
    !! 0%nat = Some (zeros 3 3).
Proof.
  assert (H : (buf (mkMat 0 0 0 3 3) < length [zeros 3 3])%nat) by (cbn; lia).
  split; [exact H|].
  exact (proj1 (detect_face_edges_keeps_input square_env (mkMat 0 0 0 3 3)
                  [zeros 3 3] H)).
Defined.

Lemma generate_sample_face_run (E : Env) (st : Store) :
  exists st',
    generate_sample_face E st =
    (Done (fst (alloc (zeros 300 300) st)), st', []).
Proof.
  unfold generate_sample_face, cv2_ellipse, cv2_circle. unfold_calls.
  eexists. reflexivity.
Qed.

(** What script 01 does to the outside: a matplotlib figure of three panels
    and one console line, which reports whether a contour of the generated
    image is large enough. *)
Lemma script01_run (E : Env) :
  exists sample final original edges result,
    generate_sample_face E [] = (Done (loaded (zeros 300 300)), sample, []) /\
    run (script01 E) =
    (0, final,
     [PltFigure 12 4;
      PltSubplot 1 3 1; PltImshow original;
      PltTitle "1. Generated Sample Image"; PltAxisOff;
      PltSubplot 1 3 2; PltImshowGray edges;
      PltTitle "2. Canny Edge Detection"; PltAxisOff;
      PltSubplot 1 3 3; PltImshow result;
      PltTitle "3. Detected Face Contour"; PltAxisOff;
      PltTightLayout; PltShow;
      Print (if existsb (large_enough E)
                  (findContours E
                     (edge_map_of E
                        (gray_of E sample (loaded (zeros 300 300)))))
             then "Success: Face shape detected via edge analysis."
             else "No face-like edges found.")]).
Proof.
  destruct (generate_sample_face_run E []) as [sample Hgen].
  exists sample. unfold script01, run, loaded.
  unfold bind at 1. rewrite Hgen.
  unfold bind at 1. rewrite detect_face_edges_run. cbn [fst snd].
  unfold_calls.
  destruct (existsb _ _); do 4 eexists; split; reflexivity.
Qed.

(** ** Side effects *)

Ltac each_event :=
  repeat (apply List.Forall_cons; [cbn; try discriminate|]);
  try apply List.Forall_nil.

Ltac find_event :=
  repeat progress (cbn [In app]; rewrite ?in_app_iff);
  repeat first [left; reflexivity | right].

Lemma report_is_internal (E : Env) (s : PhotoScript) (b : Buffer) :
  Forall (fun e => is_image_read e = false /\ is_file_write e = false /\
                   is_window e = false)
    (detection_report E s b).
Proof.
  destruct s; cbn [detection_report]; repeat constructor.
  cbn. apply List.Forall_forall. intros e He.
  apply in_map_iff in He as (f & <- & _). repeat split.
Qed.

(** C4 does not hold as worded: script 01 reads no image file, and a
    photo-based script whose input file is missing reads none either. *)
Lemma not_every_run_reads_an_image :
  ~ file_profile (trace (run (script01 square_env))) /\
  ~ reads_image_under_data
      (trace (run (photo_script missing_photo_env Script02))).
Proof.
  split.
  - destruct (script01_run square_env)
      as (sample & final & original & edges & result & _ & Hrun).
    rewrite Hrun. intros [(p & _ & Hin) _]. cbn [trace snd] in Hin.
    repeat (destruct Hin as [Hin|Hin]; [discriminate Hin|]).
    exact Hin.
  - intros (p & _ & Hin). vm_compute in Hin.
    repeat (destruct Hin as [Hin|Hin]; [discriminate Hin|]).
    exact Hin.
Qed.

(** C4, in the form the scripts satisfy.  Each photo-based script, when its
    input file exists, reads it with [cv2.imread] from a fixed relative path
    under [./data/]; on success (the image decodes) it writes the annotated
    picture, by a [cv2.imwrite] call whose result it does not check, to a
    fixed relative [.jpg] path under [./output/] and opens a display window
    that waits for a key.  Script 01 reads no image file and writes no file:
    it draws its image in memory and shows a matplotlib figure. *)
Theorem scripts_side_effects (E : Env) :
  (forall s : PhotoScript,
     let tr := trace (run (photo_script E s)) in
     under_dir "data" (image_arg s) = true /\
     under_dir "output" (output_path s) = true /\
     is_jpeg (output_path s) = true /\
     match path_exists E (checked_path s), imread E (image_arg s) with
     | true, Some _ =>
         In (Imread (image_arg s)) tr /\
         (exists content,
            In (Imwrite (output_path s) content) tr /\
            In (Imshow (window_title s) content) tr) /\
         In (WaitKey 0) tr /\
         file_profile tr
     | true, None =>
         In (Imread (image_arg s)) tr /\
         Forall (fun e => is_file_write e = false /\ is_window e = false) tr
     | false, _ =>
         Forall (fun e => is_image_read e = false /\
                          is_file_write e = false /\ is_window e = false) tr
     end) /\
  Forall (fun e => is_image_read e = false /\ is_file_write e = false)
    (trace (run (script01 E))) /\
  In PltShow (trace (run (script01 E))).
Proof.
  split.
  - intros s tr. subst tr.
    assert (Hdata : under_dir "data" (image_arg s) = true)
      by (destruct s; reflexivity).
    assert (Hout : under_dir "output" (output_path s) = true)
      by (destruct s; reflexivity).
    assert (Hjpg : is_jpeg (output_path s) = true)
      by (destruct s; reflexivity).
    split; [exact Hdata|]. split; [exact Hout|]. split; [exact Hjpg|].
    rewrite photo_script_run.
    destruct (path_exists E (checked_path s)).
    + destruct (imread E (image_arg s)) as [b|]; cbn [trace snd].
      * assert (Hread : In (Imread (image_arg s))
                          (PathExists (checked_path s) ::
                           detector_setup E s ++ [Imread (image_arg s)] ++
                           detection_report E s b ++
                           closing s (read_mat (annotated E s) (loaded b))))
          by find_event.
        assert (Hwrite : In (Imwrite (output_path s)
                               (read_mat (annotated E s) (loaded b)))
                           (PathExists (checked_path s) ::
                            detector_setup E s ++ [Imread (image_arg s)] ++
                            detection_report E s b ++
                            closing s (read_mat (annotated E s) (loaded b))))
          by (unfold closing; find_event).
        assert (Hshow : In (Imshow (window_title s)
                              (read_mat (annotated E s) (loaded b)))
                          (PathExists (checked_path s) ::
                           detector_setup E s ++ [Imread (image_arg s)] ++
                           detection_report E s b ++
                           closing s (read_mat (annotated E s) (loaded b))))
          by (unfold closing; find_event).
        assert (Hkey : In (WaitKey 0)
                         (PathExists (checked_path s) ::
                          detector_setup E s ++ [Imread (image_arg s)] ++
                          detection_report E s b ++
                          closing s (read_mat (annotated E s) (loaded b))))
          by (unfold closing; find_event).
        split; [exact Hread|]. split; [eauto|]. split; [exact Hkey|].
        split; [now exists (image_arg s)|].
        split; [|split; [eauto | exact Hkey]].
        exists (output_path s), (read_mat (annotated E s) (loaded b)). auto.
      * split; [find_event|].
        constructor; [split; reflexivity|].
        apply Forall_app. split.
        -- eapply Forall_impl; [apply setup_is_quiet|]. cbn. tauto.
        -- repeat constructor.
    + cbn [trace snd]. repeat constructor.
  - destruct (script01_run E)
      as (sample & final & original & edges & result & _ & Hrun).
    rewrite Hrun. cbn [trace snd]. split.
    + repeat constructor.
    + find_event.
Qed.

(** * Further properties *)

(** ** Cells of painted and sliced arrays *)

Lemma lookup_map {A B : Type} (f : A -> B) (l : list A) (i : nat) :
  map f l !! i = f <$> l !! i.
Proof.
  revert i. induction l as [|x l IH]; intros [|i]; cbn; auto.
Qed.

Lemma lookup_window {A : Type} (start len : Z) (l : list A) (i : Z) :
  0 <= start -> 0 <= i < len ->
  window start len l !! Z.to_nat i = l !! Z.to_nat (start + i).
Proof.
  intros Hs Hi. unfold window.
  rewrite lookup_take_lt by lia. rewrite lookup_drop.
  f_equal. lia.
Qed.

Lemma pixel_at_paint (m : Mat) (hit : Z -> Z -> bool) (color : Pixel)
    (b : Buffer) (r c : Z) :
  pixel_at (paint m hit color b) r c =
  (fun p => if in_view m r c && hit (c - col0 m) (r - row0 m)
            then color else p) <$> pixel_at b r c.
Proof.
  unfold pixel_at.
  destruct ((r <? 0) || (c <? 0)) eqn:Hneg; [reflexivity|].
  apply orb_false_iff in Hneg as [Hr Hc].
  apply Z.ltb_ge in Hr, Hc.
  unfold paint. rewrite list_lookup_imap.
  destruct (b !! Z.to_nat r) as [row|]; cbn; [|reflexivity].
  rewrite list_lookup_imap.
  destruct (row !! Z.to_nat c) as [p|]; cbn; [|reflexivity].
  now rewrite !Z2Nat.id by assumption.
Qed.

Lemma store_pixel_draw (m : Mat) (hit : Z -> Z -> bool) (color : Pixel)
    (st : Store) (r c : Z) :
  store_pixel (draw m hit color st) (buf m) r c =
  (fun p => if in_view m r c && hit (c - col0 m) (r - row0 m)
            then color else p) <$> store_pixel st (buf m) r c.
Proof.
  unfold store_pixel, draw. rewrite list_lookup_alter_eq.
  destruct (st !! buf m); cbn; [|reflexivity].
  apply pixel_at_paint.
Qed.

(** A loop that draws shapes of one colour on one array: a pixel takes the
    colour when one of the shapes covers it inside the array, and keeps its
    value otherwise. *)
Lemma store_pixel_fold_draw {A : Type} (m : Mat)
    (hit_of : A -> Z -> Z -> bool) (color : Pixel) (xs : list A) :
  forall (st : Store) (r c : Z),
    store_pixel (fold_left (fun s x => draw m (hit_of x) color s) xs st)
      (buf m) r c =
    (fun p =>
       if in_view m r c &&
          existsb (fun x => hit_of x (c - col0 m) (r - row0 m)) xs
       then color else p) <$> store_pixel st (buf m) r c.
Proof.
  induction xs as [|x xs IH]; intros st r c; cbn [fold_left existsb].
  - rewrite andb_false_r. now destruct (store_pixel st (buf m) r c).
  - rewrite IH, store_pixel_draw.
    destruct (store_pixel st (buf m) r c) as [p|]; cbn; [|reflexivity].
    f_equal.
    destruct (in_view m r c), (hit_of x (c - col0 m) (r - row0 m)),
      (existsb _ xs); reflexivity.
Qed.

Lemma pixel_at_crop (m : Mat) (b : Buffer) (r c : Z) :
  0 <= row0 m -> 0 <= col0 m -> 0 <= r < rows m -> 0 <= c < cols m ->
  pixel_at (crop m b) r c = pixel_at b (row0 m + r) (col0 m + c).
Proof.
  intros Hr0 Hc0 Hr Hc. unfold pixel_at, crop.
  replace ((r <? 0) || (c <? 0)) with false
    by (symmetry; apply orb_false_iff; split; apply Z.ltb_ge; lia).
  replace ((row0 m + r <? 0) || (col0 m + c <? 0)) with false
    by (symmetry; apply orb_false_iff; split; apply Z.ltb_ge; lia).
  rewrite lookup_map, lookup_window by lia.
  destruct (b !! Z.to_nat (row0 m + r)) as [row|]; cbn; [|reflexivity].
  now apply lookup_window.
Qed.

Lemma row_lengths_paint (m : Mat) (hit : Z -> Z -> bool) (color : Pixel)
    (b : Buffer) :
  row_lengths (paint m hit color b) = row_lengths b.
Proof.
  unfold row_lengths, paint. apply list_eq. intros i.
  rewrite !lookup_map, list_lookup_imap.
  destruct (b !! i) as [row|]; cbn; [|reflexivity].
  now rewrite length_imap.
Qed.

(** ** The region of interest *)

Lemma slice_range_bounds (n i j : Z) :
  0 <= n ->
  let '(s, l) := slice_range n i j in
  0 <= s /\ 0 <= l /\ s + l <= n.
Proof.
  intros Hn. unfold slice_range, norm_index.
  repeat case Z.ltb_spec; intros; lia.
Qed.

Lemma slice_range_exact (n i j : Z) :
  0 <= i -> i <= j -> j <= n ->
  slice_range n i j = (i, j - i).
Proof.
  intros Hi Hj Hn. unfold slice_range, norm_index.
  repeat case Z.ltb_spec; intros; f_equal; lia.
Qed.

(** X1. Whatever box the cascade returns, the view [img[y:y+h, x:x+w]]
    stays inside the image it is taken from: it is no larger, and each of
    its positions is a position of the image. *)
Theorem roi_never_leaves_image (img : Mat) (f : Rect) :
  0 <= rows img -> 0 <= cols img ->
  rows (roi_color_of img f) <= rows img /\
  cols (roi_color_of img f) <= cols img /\
  buf (roi_color_of img f) = buf img /\
  forall r c, in_view (roi_color_of img f) r c = true ->
              in_view img r c = true.
Proof.
  intros Hrows Hcols. unfold roi_color_of, mat_slice.
  pose proof (slice_range_bounds (rows img) (ry f) (ry f + rh f) Hrows) as Hr.
  pose proof (slice_range_bounds (cols img) (rx f) (rx f + rw f) Hcols) as Hc.
  destruct (slice_range (rows img) (ry f) (ry f + rh f)) as [sr lr].
  destruct (slice_range (cols img) (rx f) (rx f + rw f)) as [sc lc].
  cbn [rows cols buf]. repeat split; try lia.
  intros r c. unfold in_view. cbn [row0 col0 rows cols].
  rewrite !andb_true_iff, !Z.leb_le, !Z.ltb_lt. lia.
Qed.

Lemma roi_never_leaves_image_witness :
  0 <= rows (mkMat 0 0 0 100 120) /\
  rows (roi_color_of (mkMat 0 0 0 100 120) (mkRect 90 80 50 40)) <= 100 /\
  cols (roi_color_of (mkMat 0 0 0 100 120) (mkRect 90 80 50 40)) <= 120.
Proof.
  assert (Hr : 0 <= rows (mkMat 0 0 0 100 120)) by (cbn; lia).
  assert (Hc : 0 <= cols (mkMat 0 0 0 100 120)) by (cbn; lia).
  destruct (roi_never_leaves_image (mkMat 0 0 0 100 120)
              (mkRect 90 80 50 40) Hr Hc) as (H1 & H2 & _).
  split; [exact Hr|]. split; [exact H1 | exact H2].
Defined.

(** X2. The gray ROI handed to the eye cascade and the colour ROI the eye
    boxes are drawn on always have the same shape, so a position of the one
    is a position of the other. *)
Theorem roi_shapes_agree (E : Env) (st : Store) (img : Mat) (f : Rect) :
  gshape (roi_gray_of (gray_of E st img) f) =
  (rows (roi_color_of img f), cols (roi_color_of img f)).
Proof.
  unfold roi_gray_of, roi_color_of, gray_slice, mat_slice, gray_of.
  cbn [gshape fst snd].
  destruct (slice_range (rows img) (ry f) (ry f + rh f)) as [sr lr].
  destruct (slice_range (cols img) (rx f) (rx f + rw f)) as [sc lc].
  reflexivity.
Qed.

Lemma roi_color_exact (img : Mat) (f : Rect) :
  box_inside (rows img, cols img) f ->
  roi_color_of img f =
  {| buf := buf img; row0 := row0 img + ry f; col0 := col0 img + rx f;
     rows := rh f; cols := rw f |}.
Proof.
  intros (Hx & Hy & Hw & Hh & Hxw & Hyh). cbn [fst snd] in *.
  unfold roi_color_of, mat_slice.
  rewrite (slice_range_exact (rows img) (ry f) (ry f + rh f)) by lia.
  rewrite (slice_range_exact (cols img) (rx f) (rx f + rw f)) by lia.
  repeat f_equal; lia.
Qed.

(** X3. For a face box that lies within the image, the ROI is exactly the
    box: [h] rows and [w] columns, starting at row [y], column [x] of the
    image. *)
Theorem roi_of_inner_box (E : Env) (st : Store) (img : Mat) (f : Rect) :
  box_inside (rows img, cols img) f ->
  roi_color_of img f =
    {| buf := buf img; row0 := row0 img + ry f; col0 := col0 img + rx f;
       rows := rh f; cols := rw f |} /\
  gshape (roi_gray_of (gray_of E st img) f) = (rh f, rw f).
Proof.
  intros Hf. split; [now apply roi_color_exact|].
  destruct Hf as (Hx & Hy & Hw & Hh & Hxw & Hyh). cbn [fst snd] in *.
  unfold roi_gray_of, gray_slice, gray_of. cbn [gshape fst snd].
  rewrite (slice_range_exact (rows img) (ry f) (ry f + rh f)) by lia.
  rewrite (slice_range_exact (cols img) (rx f) (rx f + rw f)) by lia.
  cbn [gshape]. f_equal; lia.
Qed.

Lemma roi_of_inner_box_witness :
  box_inside (rows (mkMat 0 0 0 100 120), cols (mkMat 0 0 0 100 120))
    (mkRect 10 20 50 40) /\
  gshape (roi_gray_of (gray_of face_env [] (mkMat 0 0 0 100 120))
            (mkRect 10 20 50 40)) = (40, 50).
Proof.
  assert (Hf : box_inside
                 (rows (mkMat 0 0 0 100 120), cols (mkMat 0 0 0 100 120))
                 (mkRect 10 20 50 40))
    by (vm_compute; repeat split; discriminate).
  split; [exact Hf|].
  exact (proj2 (roi_of_inner_box face_env [] (mkMat 0 0 0 100 120)
                  (mkRect 10 20 50 40) Hf)).
Defined.

(** X4. Both ROIs show the face region: for a face box whose corner is a
    position of the image, the cell at row [r], column [c] of the colour ROI
    is the pixel at row [y + r], column [x + c] of the image, and the same
    holds for the gray ROI and the gray image. *)
Theorem roi_shows_face_region (E : Env) (st : Store) (img : Mat) (f : Rect)
    (r c : Z) :
  box_on (rows img, cols img) f ->
  0 <= row0 img -> 0 <= col0 img ->
  0 <= r < rows (roi_color_of img f) ->
  0 <= c < cols (roi_color_of img f) ->
  pixel_at (read_mat st (roi_color_of img f)) r c =
    image_pixel st img (ry f + r) (rx f + c) /\
  gray_at (roi_gray_of (gray_of E st img) f) r c =
    gray_at (gray_of E st img) (ry f + r) (rx f + c).
Proof.
  intros (Hx & Hy & Hw & Hh) Hr0 Hc0. cbn [fst snd] in *.
  unfold roi_gray_of, roi_color_of, gray_slice, mat_slice, gray_of.
  cbn [gshape fst snd].
  pose proof (slice_range_anchored (rows img) (ry f) (ry f + rh f)
                Hy ltac:(lia)) as Hsr.
  pose proof (slice_range_anchored (cols img) (rx f) (rx f + rw f)
                Hx ltac:(lia)) as Hsc.
  destruct (slice_range (rows img) (ry f) (ry f + rh f)) as [sr lr].
  destruct (slice_range (cols img) (rx f) (rx f + rw f)) as [sc lc].
  destruct Hsr as (-> & Hlr0 & Hlr), Hsc as (-> & Hlc0 & Hlc).
  cbn [rows cols]. intros Hr Hc. split.
  - unfold read_mat, image_pixel, store_pixel. cbn [buf].
    destruct (st !! buf img) as [b|].
    + rewrite pixel_at_crop by (cbn [row0 col0 rows cols]; lia).
      cbn [row0 col0]. f_equal; lia.
    + unfold pixel_at. now destruct ((r <? 0) || (c <? 0)).
  - unfold gray_at. cbn [gcells].
    replace ((r <? 0) || (c <? 0)) with false
      by (symmetry; apply orb_false_iff; split; apply Z.ltb_ge; lia).
    replace ((ry f + r <? 0) || (rx f + c <? 0)) with false
      by (symmetry; apply orb_false_iff; split; apply Z.ltb_ge; lia).
    rewrite lookup_map, lookup_window by lia.
    destruct (_ !! Z.to_nat (ry f + r)) as [row|]; cbn; [|reflexivity].
    now apply lookup_window.
Qed.

Lemma roi_shows_face_region_witness :
  pixel_at
    (read_mat [paint (mkMat 0 0 0 6 6) (fun x y => (x =? 2) && (y =? 3))
                 (7, 8, 9) (zeros 6 6)]
       (roi_color_of (mkMat 0 0 0 6 6) (mkRect 1 1 4 4))) 2 1 =
  Some (7, 8, 9).
Proof.
  assert (Hf : box_on (rows (mkMat 0 0 0 6 6), cols (mkMat 0 0 0 6 6))
                 (mkRect 1 1 4 4))
    by (vm_compute; repeat split; discriminate).
  rewrite (proj1 (roi_shows_face_region face_env
                    [paint (mkMat 0 0 0 6 6)
                       (fun x y => (x =? 2) && (y =? 3)) (7, 8, 9)
                       (zeros 6 6)]
                    (mkMat 0 0 0 6 6) (mkRect 1 1 4 4) 2 1 Hf
                    ltac:(cbn; lia) ltac:(cbn; lia)
                    ltac:(vm_compute; split; [discriminate | reflexivity])
                    ltac:(vm_compute; split; [discriminate | reflexivity]))).
  reflexivity.
Defined.

(** ** What the annotation loops paint *)

Lemma existsb_map {A B : Type} (g : A -> B) (p : B -> bool) (xs : list A) :
  existsb p (map g xs) = existsb (fun x => p (g x)) xs.
Proof. induction xs as [|x xs IH]; cbn; [|rewrite IH]; reflexivity. Qed.

Lemma store_pixel_fresh (st : Store) (b : Buffer) (r c : Z) :
  store_pixel (st ++ [b]) (length st) r c = pixel_at b r c.
Proof.
  unfold store_pixel. now rewrite list_lookup_middle.
Qed.

(** The memory script 02 leaves when the photo decodes: the photo, with the
    face boxes drawn on it in turn. *)
Lemma annotated_haar (E : Env) (b : Buffer) :
  imread E (image_arg Script02) = Some b ->
  annotated E Script02 =
  fold_left
    (fun s f => draw (loaded b) (box_stroke E f) (255, 0, 0) s)
    (faces_of E b) [b].
Proof.
  intros Hp. unfold annotated, store_after.
  cbn [detection_function image_arg] in *.
  unfold detect_faces_in_image, cv2_imread. unfold_calls. rewrite Hp.
  unfold_calls.
  rewrite (for_each_steps _ (fun _ => []) _ (draw_face_step E _)).
  reflexivity.
Qed.

(** X5. The picture script 02 shows and saves, pixel by pixel: a pixel of
    the decoded photo is blue (255, 0, 0) when the stroke of some face
    rectangle covers it, and is the pixel of the photo otherwise; the
    rectangles are drawn on the loaded image itself, not on a copy. *)
Theorem haar_output_pixels (E : Env) (b : Buffer) (r c : Z) :
  imread E (image_arg Script02) = Some b ->
  image_pixel (annotated E Script02) (loaded b) r c =
  (fun p => if in_view (loaded b) r c && covered_by E (faces_of E b) c r
            then (255, 0, 0) else p) <$> pixel_at b r c.
Proof.
  intros Hp. rewrite (annotated_haar E b Hp).
  unfold image_pixel.
  rewrite (store_pixel_fold_draw (loaded b) (box_stroke E) (255, 0, 0)).
  cbn [loaded alloc fst row0 col0 buf length].
  rewrite !Z.sub_0_r. reflexivity.
Qed.

Lemma haar_output_pixels_witness :
  image_pixel
    (annotated (sample_env true (Some (zeros 6 6)) [mkRect 1 1 2 2] [] []
                  None) Script02)
    (loaded (zeros 6 6)) 2 3 = Some (255, 0, 0).
Proof.
  rewrite (haar_output_pixels
             (sample_env true (Some (zeros 6 6)) [mkRect 1 1 2 2] [] [] None)
             (zeros 6 6) 2 3 eq_refl).
  reflexivity.
Defined.

(** X6. The result image of [detect_face_edges], pixel by pixel: it is the
    input image, except that a pixel is green (0, 255, 0) when the stroke of
    the bounding rectangle of some contour of area above 1000 covers it. *)
Theorem result_image_pixels (E : Env) (img : Mat) (st : Store) (r c : Z) :
  let st' := store_after (detect_face_edges E img) st in
  let result_img := fst (np_copy img st) in
  image_pixel st' result_img r c =
  (fun p =>
     if in_view result_img r c &&
        covered_by E
          (map (boundingRect E)
             (List.filter (large_enough E) (contours_of E st img))) c r
     then (0, 255, 0) else p) <$> pixel_at (read_mat st img) r c.
Proof.
  intros st' result_img. subst st' result_img.
  unfold store_after. rewrite detect_face_edges_run. cbn [fst snd].
  unfold image_pixel, contours_of.
  rewrite (store_pixel_fold_draw (fst (np_copy img st))
             (fun c => box_stroke E (boundingRect E c)) (0, 255, 0)).
  cbn [np_copy fst snd row0 col0 buf].
  rewrite store_pixel_fresh, !Z.sub_0_r.
  unfold covered_by. rewrite existsb_map. reflexivity.
Qed.

(** X7. When no contour has an area above 1000, [detect_face_edges] returns
    [face_detected = False] and a result image that is an exact copy of its
    input: the only change to memory is the new array. *)
Theorem no_large_contour_gives_plain_copy (E : Env) (img : Mat) (st : Store) :
  (forall c, In c (contours_of E st img) ->
             (1000 <? contourArea E c)%float = false) ->
  detect_face_edges E img st =
  (Done (edge_map_of E (gray_of E st img), fst (np_copy img st), false),
   st ++ [read_mat st img], []).
Proof.
  intros Hsmall. rewrite detect_face_edges_run.
  fold (contours_of E st img).
  assert (Hnone : List.filter (large_enough E) (contours_of E st img) = []).
  { induction (contours_of E st img) as [|c cs IH]; [reflexivity|].
    cbn [List.filter]. unfold large_enough at 1.
    rewrite (Hsmall c) by now left.
    apply IH. intros c' Hc'. apply Hsmall. now right. }
  assert (Hflag : existsb (large_enough E) (contours_of E st img) = false).
  { induction (contours_of E st img) as [|c cs IH]; [reflexivity|].
    cbn [existsb]. unfold large_enough at 1.
    rewrite (Hsmall c) by now left.
    apply IH.
    - intros c' Hc'. apply Hsmall. now right.
    - cbn [List.filter] in Hnone. unfold large_enough at 1 in Hnone.
      now rewrite (Hsmall c) in Hnone by now left. }
  rewrite Hnone, Hflag. reflexivity.
Qed.

Lemma no_large_contour_gives_plain_copy_witness :
  detect_face_edges
    (sample_env false None [] [] [[(0, 0); (9, 0); (9, 9); (0, 9)]] None)
    (mkMat 0 0 0 3 3) [zeros 3 3] =
  (Done (edge_map_of
           (sample_env false None [] [] [[(0, 0); (9, 0); (9, 9); (0, 9)]]
              None)
           (gray_of
              (sample_env false None [] [] [[(0, 0); (9, 0); (9, 9); (0, 9)]]
                 None)
              [zeros 3 3] (mkMat 0 0 0 3 3)),
         mkMat 1 0 0 3 3, false),
   [zeros 3 3; zeros 3 3], []).
Proof.
  apply (no_large_contour_gives_plain_copy
           (sample_env false None [] [] [[(0, 0); (9, 0); (9, 9); (0, 9)]]
              None)
           (mkMat 0 0 0 3 3) [zeros 3 3]).
  intros c [<-|[]]. reflexivity.
Defined.

(** X8. Drawing on the view reaches the image.  For a face box that lies
    within the image, after the eye loop a pixel of the main image is green
    (0, 255, 0) when it lies in the face region and the stroke of some eye
    rectangle, taken at the offset of the face, covers it; every other pixel
    is as before. *)
Theorem eye_drawing_reaches_image (E : Env) (img : Mat) (f : Rect)
    (eyes : list Rect) (st : Store) (r c : Z) :
  box_inside (rows img, cols img) f ->
  let st' := store_after (for_each eyes (draw_eye E (roi_color_of img f))) st in
  image_pixel st' img r c =
  (fun p => if in_rect f r c && covered_by E eyes (c - rx f) (r - ry f)
            then (0, 255, 0) else p) <$> image_pixel st img r c.
Proof.
  intros Hf st'. subst st'.
  pose proof (roi_color_exact img f Hf) as Hroi.
  unfold store_after at 1.
  rewrite (for_each_steps _ (fun _ => []) _ (draw_eye_step E _)).
  cbn [fst snd]. unfold image_pixel.
  replace (buf img) with (buf (roi_color_of img f)) by now rewrite Hroi.
  rewrite (store_pixel_fold_draw (roi_color_of img f) (box_stroke E)
             (0, 255, 0)).
  rewrite Hroi. cbn [buf row0 col0].
  replace (in_view _ (row0 img + r) (col0 img + c)) with (in_rect f r c).
  - replace (col0 img + c - (col0 img + rx f)) with (c - rx f) by lia.
    replace (row0 img + r - (row0 img + ry f)) with (r - ry f) by lia.
    reflexivity.
  - unfold in_rect, in_view. cbn [row0 col0 rows cols].
    apply eq_true_iff_eq.
    rewrite !andb_true_iff, !Z.leb_le, !Z.ltb_lt. lia.
Qed.

Lemma eye_drawing_reaches_image_witness :
  image_pixel
    (store_after
       (for_each [mkRect 0 0 2 2]
          (draw_eye face_env
             (roi_color_of (mkMat 0 0 0 6 6) (mkRect 1 1 4 4))))
       [zeros 6 6])
    (mkMat 0 0 0 6 6) 2 3 = Some (0, 255, 0).
Proof.
  assert (Hf : box_inside (rows (mkMat 0 0 0 6 6), cols (mkMat 0 0 0 6 6))
                 (mkRect 1 1 4 4))
    by (vm_compute; repeat split; discriminate).
  rewrite (eye_drawing_reaches_image face_env (mkMat 0 0 0 6 6)
             (mkRect 1 1 4 4) [mkRect 0 0 2 2] [zeros 6 6] 2 3 Hf).
  reflexivity.
Defined.

(** ** The generated face *)

Lemma pixel_at_zeros (h w r c : Z) :
  0 <= r < h -> 0 <= c < w -> pixel_at (zeros h w) r c = Some (0, 0, 0).
Proof.
  intros Hr Hc. unfold pixel_at, zeros.
  replace ((r <? 0) || (c <? 0)) with false
    by (symmetry; apply orb_false_iff; split; apply Z.ltb_ge; lia).
  rewrite lookup_replicate_2 by lia. apply lookup_replicate_2. lia.
Qed.

Lemma buffer_shape_zeros (h w : Z) :
  0 < h -> 0 <= w ->
  buffer_rows (zeros h w) = h /\ buffer_cols (zeros h w) = w.
Proof.
  intros Hh Hw. unfold buffer_rows, buffer_cols, zeros. split.
  - rewrite length_replicate. lia.
  - destruct (Z.to_nat h) as [|n] eqn:Hn; [lia|]. cbn [replicate].
    rewrite length_replicate. lia.
Qed.

(** X9. The image [generate_sample_face] returns, pixel by pixel, for rows
    and columns 0 to 299: black where the mouth arc or one of the two eye
    discs covers the pixel, white where only the face oval does, black
    elsewhere; the shapes drawn later win over the oval. *)
Theorem sample_face_pixels (E : Env) (r c : Z) :
  0 <= r < 300 -> 0 <= c < 300 ->
  outcome_of (generate_sample_face E) [] = Done (loaded (zeros 300 300)) /\
  image_pixel (store_after (generate_sample_face E) [])
    (loaded (zeros 300 300)) r c =
  Some
    (if ellipse_hit E (150, 180) (40, 20) 0 0 180 5 c r
        || circle_hit E (190, 130) 15 (-1) c r
        || circle_hit E (110, 130) 15 (-1) c r
     then (0, 0, 0)
     else if ellipse_hit E (150, 150) (100, 120) 0 0 360 (-1) c r
          then (255, 255, 255)
          else (0, 0, 0)).
Proof.
  intros Hr Hc. split; [reflexivity|].
  destruct (buffer_shape_zeros 300 300 ltac:(lia) ltac:(lia)) as [Hrows Hcols].
  set (img := loaded (zeros 300 300)).
  assert (Hst : store_after (generate_sample_face E) [] =
                draw img (ellipse_hit E (150, 180) (40, 20) 0 0 180 5)
                  (0, 0, 0)
                  (draw img (circle_hit E (190, 130) 15 (-1)) (0, 0, 0)
                     (draw img (circle_hit E (110, 130) 15 (-1)) (0, 0, 0)
                        (draw img
                           (ellipse_hit E (150, 150) (100, 120) 0 0 360 (-1))
                           (255, 255, 255) [zeros 300 300]))))
    by reflexivity.
  rewrite Hst. unfold image_pixel.
  assert (Hin : in_view img (row0 img + r) (col0 img + c) = true).
  { unfold in_view. subst img. cbn [loaded alloc fst row0 col0 rows cols].
    rewrite Hrows, Hcols.
    rewrite !andb_true_iff, !Z.leb_le, !Z.ltb_lt. lia. }
  rewrite !store_pixel_draw, Hin. cbn [andb].
  replace (col0 img + c - col0 img) with c by lia.
  replace (row0 img + r - row0 img) with r by lia.
  change (store_pixel [zeros 300 300] (buf img) (row0 img + r) (col0 img + c))
    with (pixel_at (zeros 300 300) (0 + r) (0 + c)).
  rewrite pixel_at_zeros by lia. cbn [fmap option_fmap option_map].
  f_equal.
  destruct (ellipse_hit E (150, 180) (40, 20) 0 0 180 5 c r),
    (circle_hit E (190, 130) 15 (-1) c r),
    (circle_hit E (110, 130) 15 (-1) c r),
    (ellipse_hit E (150, 150) (100, 120) 0 0 360 (-1) c r); reflexivity.
Qed.

Lemma sample_face_pixels_witness :
  image_pixel (store_after (generate_sample_face square_env) [])
    (loaded (zeros 300 300)) 130 110 = Some (0, 0, 0) /\
  image_pixel (store_after (generate_sample_face square_env) [])
    (loaded (zeros 300 300)) 150 150 = Some (255, 255, 255).
Proof.
  split.
  - rewrite (proj2 (sample_face_pixels square_env 130 110
                      ltac:(lia) ltac:(lia))).
    reflexivity.
  - rewrite (proj2 (sample_face_pixels square_env 150 150
                      ltac:(lia) ltac:(lia))).
    reflexivity.
Defined.

(** ** Shapes *)

Lemma shapes_draw (m : Mat) (hit : Z -> Z -> bool) (color : Pixel)
    (st : Store) :
  map row_lengths (draw m hit color st) = map row_lengths st.
Proof.
  unfold draw. apply list_eq. intros i.
  rewrite !lookup_map, list_lookup_alter.
  destruct (decide (buf m = i)) as [<-|Hne]; [|reflexivity].
  destruct (st !! buf m) as [b|]; cbn; [|reflexivity].
  now rewrite row_lengths_paint.
Qed.

Lemma shapes_fold_draw {A : Type} (m : A -> Mat)
    (hit_of : A -> Z -> Z -> bool) (color : Pixel) (xs : list A)
    (st : Store) :
  map row_lengths
    (fold_left (fun s x => draw (m x) (hit_of x) color s) xs st) =
  map row_lengths st.
Proof.
  symmetry.
  apply (fold_left_keeps
           (fun s1 s2 => map row_lengths s1 = map row_lengths s2)).
  - reflexivity.
  - intros s1 s2 s3 H12 H23. now rewrite H12.
  - intros s x. symmetry. apply shapes_draw.
Qed.

Lemma row_lengths_crop (m : Mat) (b b' : Buffer) :
  row_lengths b = row_lengths b' ->
  row_lengths (crop m b) = row_lengths (crop m b').
Proof.
  intros Hb. unfold row_lengths, crop, window in *.
  rewrite !map_map.
  assert (Hlen : forall row : list Pixel,
            length (take (Z.to_nat (cols m)) (drop (Z.to_nat (col0 m)) row)) =
            (fun n => Nat.min (Z.to_nat (cols m)) (n - Z.to_nat (col0 m)))
              (length row)).
  { intros row. rewrite length_take, length_drop. reflexivity. }
  rewrite !(map_ext _ _ Hlen).
  rewrite <- !(map_map length
                 (fun n => Nat.min (Z.to_nat (cols m))
                             (n - Z.to_nat (col0 m)))).
  rewrite <- !firstn_map, <- !skipn_map. now rewrite Hb.
Qed.

Lemma analyse_face_store (E : Env) (img : Mat) (gray : Gray) (f : Rect)
    (st : Store) :
  store_after (analyse_face E img gray f) st =
  fold_left
    (fun s e => draw (roi_color_of img f) (box_stroke E e) (0, 255, 0) s)
    (detectMultiScale E (eye_cascade_path E) (roi_gray_of gray f) 1.1 3 None)
    (draw img (box_stroke E f) (255, 0, 0) st).
Proof.
  unfold store_after, analyse_face. unfold_calls.
  rewrite (for_each_steps _ (fun _ => []) _ (draw_eye_step E _)).
  reflexivity.
Qed.

(** The memory script 03 leaves when the photo decodes. *)
Lemma annotated_features (E : Env) (b : Buffer) :
  imread E (image_arg Script03) = Some b ->
  annotated E Script03 =
  fold_left
    (fun s f =>
       store_after (analyse_face E (loaded b) (gray_of E [b] (loaded b)) f) s)
    (faces_of E b) [b].
Proof.
  intros Hp. unfold annotated, store_after at 1.
  cbn [detection_function image_arg] in *.
  unfold detect_features, cv2_imread. unfold_calls. cbn in Hp. rewrite Hp.
  unfold_calls.
  rewrite (for_each_steps _ _ _ (analyse_face_step E _ _)).
  reflexivity.
Qed.

(** X10. The two cascade scripts keep the photo in one array and never
    resize it: when the photo decodes, the final memory holds a single
    array with the row lengths of the decoded photo, so the picture they
    show and save has the shape of the picture they loaded. *)
Theorem cascade_scripts_keep_shape (E : Env) (s : PhotoScript) (b : Buffer) :
  s <> Script04 ->
  imread E (image_arg s) = Some b ->
  (exists b', annotated E s = [b'] /\ row_lengths b' = row_lengths b) /\
  row_lengths (read_mat (annotated E s) (loaded b)) =
  row_lengths (read_mat [b] (loaded b)).
Proof.
  intros Hs Hp.
  assert (Hshape : map row_lengths (annotated E s) = [row_lengths b]).
  { destruct s; [| |congruence].
    - rewrite (annotated_haar E b Hp).
      apply (shapes_fold_draw (fun _ => loaded b)).
    - rewrite (annotated_features E b Hp).
      change [row_lengths b] with (map row_lengths [b]).
      symmetry.
      apply (fold_left_keeps
               (fun s1 s2 => map row_lengths s1 = map row_lengths s2)).
      + reflexivity.
      + intros s1 s2 s3 H12 H23. now rewrite H12.
      + intros st f. rewrite analyse_face_store.
        rewrite (shapes_fold_draw (fun _ => roi_color_of (loaded b) f)).
        now rewrite shapes_draw. }
  destruct (annotated E s) as [|b' [|b'' rest]]; try discriminate Hshape.
  injection Hshape as Hb'. split; [eauto|].
  unfold read_mat. cbn [loaded alloc fst buf length lookup list_lookup].
  now apply row_lengths_crop.
Qed.

Lemma cascade_scripts_keep_shape_witness :
  Script03 <> Script04 /\
  imread face_env (image_arg Script03) = Some (zeros 6 6) /\
  row_lengths (read_mat (annotated face_env Script03) (loaded (zeros 6 6))) =
  row_lengths (read_mat [zeros 6 6] (loaded (zeros 6 6))).
Proof.
  assert (Hs : Script03 <> Script04) by discriminate.
  split; [exact Hs|]. split; [reflexivity|].
  exact (proj2 (cascade_scripts_keep_shape face_env Script03 (zeros 6 6)
                  Hs eq_refl)).
Defined.

(** ** What the photo-based scripts show, save and call *)

Lemma display_and_save_only_close (E : Env) (s : PhotoScript) (b : Buffer)
    (content : Buffer) (e : Event) :
  In e (PathExists (checked_path s) ::
        detector_setup E s ++ [Imread (image_arg s)] ++
        detection_report E s b ++ closing s content) ->
  is_window e = true \/ is_file_write e = true ->
  In e (closing s content).
Proof.
  intros Hin Hkind. cbn [In] in Hin. rewrite !in_app_iff in Hin.
  destruct Hin as [<-|[Hin|[Hin|[Hin|Hin]]]]; [| | | |exact Hin]; exfalso.
  - destruct Hkind; discriminate.
  - pose proof (setup_is_quiet E s) as Hq.
    rewrite List.Forall_forall in Hq. destruct (Hq e Hin) as (_ & Hw & Hf).
    destruct Hkind; congruence.
  - destruct Hin as [<-|[]]. destruct Hkind; discriminate.
  - pose proof (report_is_internal E s b) as Hq.
    rewrite List.Forall_forall in Hq. destruct (Hq e Hin) as (_ & Hf & Hw).
    destruct Hkind; congruence.
Qed.

(** X11. In every run of a photo-based script, what is written to disk is
    what was shown: any [cv2.imshow] and any [cv2.imwrite] of the run carry
    the same picture, under the window title and the output path of the
    script. *)
Theorem shown_is_saved (E : Env) (s : PhotoScript) (title p : string)
    (shown saved : Buffer) :
  In (Imshow title shown) (trace (run (photo_script E s))) ->
  In (Imwrite p saved) (trace (run (photo_script E s))) ->
  shown = saved /\ title = window_title s /\ p = output_path s.
Proof.
  rewrite photo_script_run.
  destruct (path_exists E (checked_path s)).
  - destruct (imread E (image_arg s)) as [b|]; cbn [trace snd].
    + intros Hshow Hsave.
      apply display_and_save_only_close in Hshow; [|now left].
      apply display_and_save_only_close in Hsave; [|now right].
      unfold closing in *. cbn [In] in Hshow, Hsave.
      destruct Hshow as [Hshow|[Hshow|[Hshow|[Hshow|[Hshow|[]]]]]];
        try discriminate Hshow.
      destruct Hsave as [Hsave|[Hsave|[Hsave|[Hsave|[Hsave|[]]]]]];
        try discriminate Hsave.
      injection Hshow as <- <-. injection Hsave as <- <-. auto.
    + intros Hshow _. exfalso. cbn [In] in Hshow.
      rewrite in_app_iff in Hshow.
      destruct Hshow as [Hshow|[Hshow|Hshow]]; [discriminate Hshow| |].
      * pose proof (setup_is_quiet E s) as Hq.
        rewrite List.Forall_forall in Hq.
        destruct (Hq _ Hshow) as (_ & Hw & _). discriminate Hw.
      * destruct Hshow as [Hshow|[Hshow|[]]]; discriminate Hshow.
  - cbn. intros [Hshow|[Hshow|[]]]; discriminate Hshow.
Qed.

Lemma shown_is_saved_witness :
  In (Imshow "Detected Faces and Eyes"
        (read_mat (annotated face_env Script03) (loaded (zeros 6 6))))
    (trace (run (photo_script face_env Script03))) /\
  In (Imwrite "./output/detected_features.jpg"
        (read_mat (annotated face_env Script03) (loaded (zeros 6 6))))
    (trace (run (photo_script face_env Script03))) /\
  "Detected Faces and Eyes" = window_title Script03.
Proof.
  assert (Hshow : In (Imshow "Detected Faces and Eyes"
                        (read_mat (annotated face_env Script03)
                           (loaded (zeros 6 6))))
                    (trace (run (photo_script face_env Script03))))
    by (vm_compute; tauto).
  assert (Hsave : In (Imwrite "./output/detected_features.jpg"
                        (read_mat (annotated face_env Script03)
                           (loaded (zeros 6 6))))
                    (trace (run (photo_script face_env Script03))))
    by (vm_compute; tauto).
  split; [exact Hshow|]. split; [exact Hsave|].
  exact (proj1 (proj2 (shown_is_saved face_env Script03 _ _ _ _
                         Hshow Hsave))).
Defined.

Lemma detector_calls_app (tr1 tr2 : list Event) :
  detector_calls (tr1 ++ tr2) = (detector_calls tr1 + detector_calls tr2)%nat.
Proof.
  unfold detector_calls. now rewrite List.filter_app, length_app.
Qed.

Lemma detector_calls_quiet (tr : list Event) :
  Forall (fun e => is_detection e = false) tr -> detector_calls tr = 0%nat.
Proof.
  unfold detector_calls. induction 1 as [|e tr He _ IH]; [reflexivity|].
  cbn [List.filter]. now rewrite He.
Qed.

Lemma detector_calls_per_item {A : Type} (cascade : string)
    (shape_of : A -> Z * Z) (xs : list A) :
  detector_calls (map (fun x => DetectMultiScale cascade (shape_of x)) xs) =
  length xs.
Proof.
  unfold detector_calls.
  induction xs as [|x xs IH]; [reflexivity|]. cbn. now rewrite IH.
Qed.

(** X12. How often a photo-based script calls a detector: never when the
    file is missing or does not decode; otherwise once in scripts 02 and 04,
    and in script 03 once for the faces plus once per face found for the
    eyes. *)
Theorem detector_call_count (E : Env) (s : PhotoScript) :
  detector_calls (trace (run (photo_script E s))) =
  match path_exists E (checked_path s), imread E (image_arg s) with
  | true, Some b =>
      match s with
      | Script03 => S (length (faces_of E b))
      | _ => 1%nat
      end
  | _, _ => 0%nat
  end.
Proof.
  rewrite photo_script_run.
  assert (Hsetup : detector_calls (detector_setup E s) = 0%nat).
  { apply detector_calls_quiet.
    eapply Forall_impl; [apply setup_is_quiet|]. cbn. tauto. }
  destruct (path_exists E (checked_path s)); [|reflexivity].
  destruct (imread E (image_arg s)) as [b|]; cbn [trace snd].
  - change (PathExists (checked_path s) :: ?l)
      with ([PathExists (checked_path s)] ++ l).
    rewrite !detector_calls_app, Hsetup.
    change (detector_calls [PathExists (checked_path s)]) with 0%nat.
    change (detector_calls [Imread (image_arg s)]) with 0%nat.
    change (detector_calls (closing s _)) with 0%nat.
    rewrite Nat.add_0_l, Nat.add_0_r.
    destruct s; cbn [detection_report]; try reflexivity.
    rewrite detector_calls_app. cbn [Nat.add].
    change (detector_calls [DetectMultiScale _ _; Print _]) with 1%nat.
    cbn [Nat.add]. f_equal. apply detector_calls_per_item.
  - change (PathExists (checked_path s) :: ?l)
      with ([PathExists (checked_path s)] ++ l).
    rewrite !detector_calls_app, Hsetup. reflexivity.
Qed.

(** ** The whole of scripts 01, 03 and 04 *)

Lemma generate_sample_face_result (E : Env) :
  generate_sample_face E [] =
  (Done (loaded (zeros 300 300)),
   store_after (generate_sample_face E) [], []) /\
  length (store_after (generate_sample_face E) []) = 1%nat.
Proof.
  split; [reflexivity|].
  set (img := loaded (zeros 300 300)).
  change (store_after (generate_sample_face E) [])
    with (draw img (ellipse_hit E (150, 180) (40, 20) 0 0 180 5) (0, 0, 0)
            (draw img (circle_hit E (190, 130) 15 (-1)) (0, 0, 0)
               (draw img (circle_hit E (110, 130) 15 (-1)) (0, 0, 0)
                  (draw img
                     (ellipse_hit E (150, 150) (100, 120) 0 0 360 (-1))
                     (255, 255, 255) [zeros 300 300])))).
  unfold draw. now rewrite !length_alter.
Qed.

Lemma script01_after (E : Env) (img result : Mat) (sample final : Store)
    (edges : Gray) (found : bool) :
  generate_sample_face E [] = (Done img, sample, []) ->
  detect_face_edges E img sample = (Done (edges, result, found), final, []) ->
  run (script01 E) =
  (0, final,
   [PltFigure 12 4;
    PltSubplot 1 3 1; PltImshow (map (map bgr2rgb) (read_mat final img));
    PltTitle "1. Generated Sample Image"; PltAxisOff;
    PltSubplot 1 3 2; PltImshowGray edges;
    PltTitle "2. Canny Edge Detection"; PltAxisOff;
    PltSubplot 1 3 3; PltImshow (map (map bgr2rgb) (read_mat final result));
    PltTitle "3. Detected Face Contour"; PltAxisOff;
    PltTightLayout; PltShow;
    Print (if found
           then "Success: Face shape detected via edge analysis."
           else "No face-like edges found.")]).
Proof.
  intros Hgen Hdet. unfold script01, run.
  unfold bind at 1. rewrite Hgen.
  unfold bind at 1. rewrite Hdet.
  destruct found; reflexivity.
Qed.

(** X13. Script 01 from end to end, whatever the libraries return: it never
    exits early (status 0), shows one figure of three panels and prints one
    line after the figure is closed.  Panel 1 shows the image as generated,
    without rectangles, although it is rendered after detection; panel 2 the
    edge map; panel 3 the annotated copy.  The line is the success message
    exactly when a contour of the generated image has an area above 1000. *)
Theorem script01_figure (E : Env) :
  let img := loaded (zeros 300 300) in
  let sample := store_after (generate_sample_face E) [] in
  let final := store_after (detect_face_edges E img) sample in
  status (run (script01 E)) = 0 /\
  trace (run (script01 E)) =
  [PltFigure 12 4;
   PltSubplot 1 3 1; PltImshow (map (map bgr2rgb) (read_mat sample img));
   PltTitle "1. Generated Sample Image"; PltAxisOff;
   PltSubplot 1 3 2; PltImshowGray (edge_map_of E (gray_of E sample img));
   PltTitle "2. Canny Edge Detection"; PltAxisOff;
   PltSubplot 1 3 3;
   PltImshow (map (map bgr2rgb) (read_mat final (fst (np_copy img sample))));
   PltTitle "3. Detected Face Contour"; PltAxisOff;
   PltTightLayout; PltShow;
   Print (if existsb (large_enough E) (contours_of E sample img)
          then "Success: Face shape detected via edge analysis."
          else "No face-like edges found.")].
Proof.
  intros img sample final.
  destruct (generate_sample_face_result E) as [Hgen Hlen].
  fold sample in Hgen, Hlen. fold img in Hgen.
  pose proof (detect_face_edges_run E img sample) as Hdet.
  cbv zeta in Hdet.
  assert (Hfinal : final = snd (fst (detect_face_edges E img sample)))
    by reflexivity.
  rewrite Hdet in Hfinal. cbn [fst snd] in Hfinal.
  rewrite <- Hfinal in Hdet.
  assert (Hkeep : read_mat final img = read_mat sample img).
  { unfold read_mat. rewrite Hfinal.
    rewrite (copy_is_fresh E img sample); [reflexivity|].
    rewrite Hlen. unfold img. cbn. lia. }
  rewrite (script01_after E _ _ _ _ _ _ Hgen Hdet), Hkeep.
  split; reflexivity.
Qed.

Lemma mesh_loop (E : Env) (img : Mat) (faces : list Landmarks) :
  buf img = 0%nat ->
  forall picture : Buffer,
    fold_left (fun s l => store_after (draw_mesh E img l) s) faces [picture] =
    [fold_left
       (fun picture face_landmarks =>
          draw_landmarks E face_landmarks FACEMESH_CONTOURS
            (draw_landmarks E face_landmarks FACEMESH_TESSELATION picture))
       faces picture].
Proof.
  intros Himg. induction faces as [|face faces IH]; intros picture;
    [reflexivity|].
  cbn [fold_left]. rewrite <- IH. f_equal.
  unfold store_after, draw_mesh, mp_draw. unfold_calls.
  rewrite Himg. reflexivity.
Qed.

(** X14. The picture script 04 shows and saves: the decoded photo on which,
    for each face the mesh model returns and in that order, the tesselation
    is drawn first and the contours on top.  The model is given the RGB
    conversion of the photo, the drawing is done on the photo itself; with
    no face ([None] or an empty list) the photo is left as decoded. *)
Theorem mesh_output (E : Env) (b : Buffer) :
  imread E (image_arg Script04) = Some b ->
  annotated E Script04 =
  [fold_left
     (fun picture face_landmarks =>
        draw_landmarks E face_landmarks FACEMESH_CONTOURS
          (draw_landmarks E face_landmarks FACEMESH_TESSELATION picture))
     (default []
        (face_mesh_process E (map (map bgr2rgb) (read_mat [b] (loaded b)))))
     b].
Proof.
  intros Hp. unfold annotated, store_after.
  cbn [detection_function image_arg] in *.
  unfold detect_face_contours, cv2_imread. unfold_calls.
  cbn in Hp. rewrite Hp. unfold_calls.
  destruct (face_mesh_process E _) as [[|l ls]|]; cbn [default];
    try reflexivity.
  rewrite (for_each_steps _ (fun _ => []) _ (draw_mesh_step E _)).
  cbn [fst snd]. now rewrite mesh_loop.
Qed.

Lemma mesh_output_witness :
  annotated
    (sample_env true (Some (zeros 2 2)) [] [] []
       (Some [[(0.5, 0.5, 0)%float]])) Script04 = [zeros 2 2].
Proof.
  rewrite (mesh_output
             (sample_env true (Some (zeros 2 2)) [] [] []
                (Some [[(0.5, 0.5, 0)%float]])) (zeros 2 2) eq_refl).
  reflexivity.
Defined.

(** X15. Script 03 writes two colours only: whatever the cascades and the
    rasteriser return, a pixel of its final picture is blue (255, 0, 0),
    green (0, 255, 0) or the pixel the photo had when it was decoded. *)
Theorem features_palette (E : Env) (b : Buffer) (r c : Z) (p : Pixel) :
  imread E (image_arg Script03) = Some b ->
  image_pixel (annotated E Script03) (loaded b) r c = Some p ->
  p = (255, 0, 0) \/ p = (0, 255, 0) \/ pixel_at b r c = Some p.
Proof.
  intros Hp. rewrite (annotated_features E b Hp).
  unfold image_pixel. cbn [loaded alloc fst buf row0 col0 length].
  rewrite !Z.add_0_l.
  set (R := fun s1 s2 : Store =>
              forall q, store_pixel s2 0 r c = Some q ->
                        q = (255, 0, 0) \/ q = (0, 255, 0) \/
                        store_pixel s1 0 r c = Some q).
  assert (Hdraw : forall (m : Mat) hit color st,
            color = (255, 0, 0) \/ color = (0, 255, 0) ->
            R st (draw m hit color st)).
  { intros m hit color st Hcolor q.
    destruct (decide (buf m = 0%nat)) as [Hm|Hm].
    - rewrite <- Hm, store_pixel_draw.
      destruct (store_pixel st (buf m) r c) as [q0|]; cbn; [|discriminate].
      destruct (in_view m r c && hit (c - col0 m) (r - row0 m)).
      + intros [= <-]. tauto.
      + intros [= <-]. tauto.
    - rewrite store_pixel_draw_outside by (left; congruence). tauto. }
  assert (Hrefl : forall st, R st st) by (intros st q Hq; tauto).
  assert (Htrans : forall s1 s2 s3, R s1 s2 -> R s2 s3 -> R s1 s3).
  { intros s1 s2 s3 H12 H23 q Hq.
    destruct (H23 q Hq) as [?|[?|Hq2]]; [tauto|tauto|]. now apply H12. }
  intros Hpix.
  change (pixel_at b r c) with (store_pixel [b] 0 r c).
  revert p Hpix.
  apply (fold_left_keeps R); [exact Hrefl | exact Htrans |].
  intros st f. rewrite analyse_face_store.
  eapply Htrans; [apply Hdraw; now left|].
  apply (fold_left_keeps R); [exact Hrefl | exact Htrans |].
  intros st' e. apply Hdraw. now right.
Qed.

Lemma features_palette_witness :
  imread face_env (image_arg Script03) = Some (zeros 6 6) /\
  image_pixel (annotated face_env Script03) (loaded (zeros 6 6)) 5 5 =
    Some (255, 0, 0) /\
  ((255, 0, 0) = (255, 0, 0) \/ (255, 0, 0) = (0, 255, 0) \/
   pixel_at (zeros 6 6) 5 5 = Some (255, 0, 0)).
Proof.
  split; [reflexivity|]. split; [reflexivity|].
  apply (features_palette face_env (zeros 6 6) 5 5 (255, 0, 0)); reflexivity.
Defined.

Lemma fold_left_keeps_in {A : Type} (R : Store -> Store -> Prop)
    (step : Store -> A -> Store) (xs : list A) :
  (forall st, R st st) ->
  (forall st1 st2 st3, R st1 st2 -> R st2 st3 -> R st1 st3) ->
  (forall st x, In x xs -> R st (step st x)) ->
  forall st, R st (fold_left step xs st).
Proof.
  intros Hrefl Htrans.
  induction xs as [|x xs IH]; intros Hstep st; cbn; [apply Hrefl|].
  eapply Htrans; [apply Hstep; now left|].
  apply IH. intros st' x' Hx'. apply Hstep. now right.
Qed.

(** X16. Outside the faces the picture of script 03 is the photo: when the
    face boxes have non-negative corners and sizes, a pixel that no face
    rectangle's stroke covers and that lies in no face region has, in the
    final picture, the value it had when the photo was decoded. *)
Theorem features_keep_background (E : Env) (b : Buffer) (r c : Z) :
  imread E (image_arg Script03) = Some b ->
  (forall f, In f (faces_of E b) ->
     0 <= rx f /\ 0 <= ry f /\ 0 <= rw f /\ 0 <= rh f) ->
  (forall f, In f (faces_of E b) ->
     box_stroke E f c r = false /\ in_rect f r c = false) ->
  image_pixel (annotated E Script03) (loaded b) r c = pixel_at b r c.
Proof.
  intros Hp Hboxes Hout. rewrite (annotated_features E b Hp).
  unfold image_pixel. cbn [loaded alloc fst buf row0 col0 length].
  rewrite !Z.add_0_l.
  change (pixel_at b r c) with (store_pixel [b] 0 r c). symmetry.
  apply (fold_left_keeps_in
           (fun s1 s2 => store_pixel s1 0 r c = store_pixel s2 0 r c)).
  - reflexivity.
  - intros s1 s2 s3 H12 H23. now rewrite H12.
  - intros st f Hf. rewrite analyse_face_store.
    destruct (Hboxes f Hf) as (Hx & Hy & Hw & Hh).
    destruct (Hout f Hf) as [Hstroke Hregion].
    transitivity (store_pixel
                    (draw (loaded b) (box_stroke E f) (255, 0, 0) st) 0 r c).
    + pose proof (store_pixel_draw (loaded b) (box_stroke E f) (255, 0, 0)
                    st r c) as Hd.
      cbn [loaded alloc fst buf row0 col0 length] in Hd.
      rewrite !Z.sub_0_r, Hstroke, andb_false_r in Hd.
      cbn [loaded alloc fst length]. rewrite Hd.
      now destruct (store_pixel st 0 r c).
    + apply (fold_left_keeps
               (fun s1 s2 => store_pixel s1 0 r c = store_pixel s2 0 r c)).
      * reflexivity.
      * intros s1 s2 s3 H12 H23. now rewrite H12.
      * intros s e. symmetry. apply store_pixel_draw_outside. right.
        pose proof (roi_view_in_face (loaded b) f r c Hx Hy Hw Hh Hregion)
          as Hview.
        cbn [loaded alloc fst row0 col0] in Hview.
        now rewrite !Z.add_0_l in Hview.
Qed.

Lemma features_keep_background_witness :
  image_pixel (annotated face_env Script03) (loaded (zeros 6 6)) 0 0 =
  pixel_at (zeros 6 6) 0 0.
Proof.
  apply (features_keep_background face_env (zeros 6 6) 0 0 eq_refl).
  - intros f [<-|[]]. cbn. lia.
  - intros f [<-|[]]. split; reflexivity.
Defined.

(** ** The arrays handed to the detectors *)

Lemma length_window {A : Type} (start len : Z) (l : list A) :
  0 <= start -> 0 <= len -> start + len <= Z.of_nat (length l) ->
  Z.of_nat (length (window start len l)) = len.
Proof.
  intros Hs Hl Hfit. unfold window.
  rewrite length_take, length_drop. lia.
Qed.

Lemma in_window {A : Type} (start len : Z) (l : list A) (x : A) :
  In x (window start len l) -> In x l.
Proof.
  unfold window. intros Hin.
  rewrite <- (take_drop (Z.to_nat start) l). apply in_or_app. right.
  rewrite <- (take_drop (Z.to_nat len) (drop (Z.to_nat start) l)).
  apply in_or_app. now left.
Qed.

Lemma gray_slice_well_shaped (g : Gray) (y0 y1 x0 x1 : Z) :
  well_shaped g -> well_shaped (gray_slice g y0 y1 x0 x1).
Proof.
  intros (Hrows & Hcols & Hlen & Hrow). unfold gray_slice.
  pose proof (slice_range_bounds (fst (gshape g)) y0 y1 Hrows) as Hr.
  pose proof (slice_range_bounds (snd (gshape g)) x0 x1 Hcols) as Hc.
  destruct (slice_range (fst (gshape g)) y0 y1) as [sr lr].
  destruct (slice_range (snd (gshape g)) x0 x1) as [sc lc].
  destruct Hr as (Hsr & Hlr & Hfr), Hc as (Hsc & Hlc & Hfc).
  unfold well_shaped. cbn [gshape gcells fst snd].
  split; [exact Hlr|]. split; [exact Hlc|]. split.
  - rewrite length_map. apply length_window; lia.
  - apply List.Forall_forall. intros row Hin.
    apply in_map_iff in Hin as (row0 & <- & Hin0).
    apply length_window; try lia.
    apply in_window in Hin0.
    rewrite List.Forall_forall in Hrow.
    rewrite (Hrow row0 Hin0). lia.
Qed.

(** X17. For a decoded photo whose rows all have the same length, every
    array script 03 hands to a cascade is well formed, whatever box the
    face cascade returns: the gray image and each gray ROI hold exactly as
    many rows and columns of cells as their shape says. *)
Theorem detector_inputs_well_shaped (E : Env) (b : Buffer) (f : Rect) :
  rectangular b ->
  well_shaped (gray_of E [b] (loaded b)) /\
  well_shaped (roi_gray_of (gray_of E [b] (loaded b)) f).
Proof.
  intros Hrect.
  assert (Hgray : well_shaped (gray_of E [b] (loaded b))).
  { unfold well_shaped, gray_of, read_mat, crop.
    cbn [loaded alloc fst buf row0 col0 rows cols gshape gcells fst snd
         length lookup list_lookup].
    unfold buffer_rows.
    assert (Hcols : 0 <= buffer_cols b)
      by (unfold buffer_cols; destruct b; lia).
    split; [lia|]. split; [exact Hcols|]. split.
    - rewrite !length_map. apply length_window; lia.
    - apply List.Forall_forall. intros row Hin.
      apply in_map_iff in Hin as (row1 & <- & Hin1).
      apply in_map_iff in Hin1 as (row0 & <- & Hin0).
      rewrite length_map. apply length_window; try lia.
      apply in_window in Hin0.
      unfold rectangular in Hrect. rewrite List.Forall_forall in Hrect.
      rewrite (Hrect row0 Hin0). lia. }
  split; [exact Hgray|].
  unfold roi_gray_of. now apply gray_slice_well_shaped.
Qed.

Lemma detector_inputs_well_shaped_witness :
  rectangular (zeros 6 6) /\
  well_shaped
    (roi_gray_of (gray_of face_env [zeros 6 6] (loaded (zeros 6 6)))
       (mkRect 4 4 9 9)).
Proof.
  assert (Hrect : rectangular (zeros 6 6))
    by (unfold rectangular; repeat constructor).
  split; [exact Hrect|].
  exact (proj2 (detector_inputs_well_shaped face_env (zeros 6 6)
                  (mkRect 4 4 9 9) Hrect)).
Defined.
